(** * Sharp.AI: the Gemini service layer and the Style Playground

    A shallow embedding of
      - [src/types.ts]                      (the data model),
      - [src/services/geminiService.ts]     ([analyzeFace], [generateLookPreview]),
      - [src/components/StylePlayground.tsx] ([handleVisualize] and the action
        button),
    followed by the properties of the specification, each one stated over
    these definitions.

    JavaScript strings are modelled by [string]; every literal of the source
    is ASCII.  [undefined] and [null] are modelled by [None]. *)

From Stdlib Require Import String Ascii List Bool Arith Lia ZArith DecimalString.
Import ListNotations.
Open Scope string_scope.

Set Implicit Arguments.

(* ================================================================== *)
(** * JavaScript primitives used by the source *)
(* ================================================================== *)

Module JS.

(** Truthiness of a [string | undefined | null] value: [undefined], [null]
    and the empty string are falsy, every other string is truthy. *)
Definition truthy (v : option string) : bool :=
  match v with
  | None => false
  | Some EmptyString => false
  | Some (String _ _) => true
  end.

(** [a || b] where [a : string | undefined] and [b : string]. *)
Definition or_else (a : option string) (b : string) : string :=
  if truthy a then match a with Some s => s | None => b end else b.

(** [s.split(sep)] for a separator of one character.  The result is never
    empty: a string without separator gives the one-element array. *)
Fixpoint split (sep : ascii) (s : string) : list string :=
  match s with
  | EmptyString => [EmptyString]
  | String c s' =>
      if Ascii.eqb c sep then EmptyString :: split sep s'
      else match split sep s' with
           | h :: t => String c h :: t
           | [] => [String c EmptyString]
           end
  end.

(** [arr[i]]: reading past the end of an array gives [undefined]. *)
Definition index {A : Type} (arr : list A) (i : nat) : option A :=
  nth_error arr i.

(** [hay.includes(needle)]: [needle] occurs in [hay] as a substring. *)
Fixpoint includes (needle hay : string) : bool :=
  String.prefix needle hay ||
  match hay with
  | EmptyString => false
  | String _ t => includes needle t
  end.

(** [overlap n t]: a non-empty end of [n] begins [t], so that [n] could
  straddle the junction of some [x] and [t] in [x ++ t]. *)
Fixpoint overlap (n t : string) : bool :=
  match n with
  | EmptyString => false
  | String _ n' => String.prefix n t || overlap n' t
  end.

(** The character [c] occurs in [s]. *)
Fixpoint has_char (c : ascii) (s : string) : bool :=
  match s with
  | EmptyString => false
  | String d t => Ascii.eqb d c || has_char c t
  end.

(** How many times the character [c] occurs in [s]. *)
Fixpoint count_char (c : ascii) (s : string) : nat :=
  match s with
  | EmptyString => 0
  | String d t => (if Ascii.eqb d c then 1 else 0) + count_char c t
  end.

(** The double quote, and a string of one double quote. *)
Definition dquote : ascii := Ascii.ascii_of_nat 34.
Definition DQ : string := String dquote EmptyString.

(** The line feed, and a string of one line feed. *)
Definition lf : ascii := Ascii.ascii_of_nat 10.
Definition LF : string := String lf EmptyString.

End JS.

(* ================================================================== *)
(** * src/types.ts *)
(* ================================================================== *)

Inductive AnalysisMode : Type :=
| COMPLETE
| HAIRSTYLE_ONLY
| FACIAL_HAIR_ONLY.

(** What [JSON.parse] returns.  [analyzeFace] casts it to [AnalysisResult]
  without looking at it, so the result is kept as the parsed value and its
  fields are read as properties.  A number is kept as its lexeme. *)
#[warnings="-register-all"] Inductive JSON : Type :=
| JNull
| JBool (b : bool)
| JNumber (lexeme : string)
| JString (s : string)
| JArray (items : list JSON)
| JObject (members : list (string * JSON)).

Module Json.

(** [v.key]: the property [key] of an object; when the text repeated a key
    the last occurrence is the one kept by [JSON.parse].  [None] is
    [undefined]. *)
Fixpoint lookup (key : string) (members : list (string * JSON)) : option JSON :=
  match members with
  | [] => None
  | (k, v) :: rest =>
      match lookup key rest with
      | Some w => Some w
      | None => if String.eqb k key then Some v else None
      end
  end.

Definition prop (key : string) (v : JSON) : option JSON :=
  match v with
  | JObject members => lookup key members
  | _ => None
  end.

(** [v.key.length] when [v.key] is an array. *)
Definition array_length (key : string) (v : JSON) : option nat :=
  match prop key v with
  | Some (JArray items) => Some (List.length items)
  | _ => None
  end.

End Json.

(* ================================================================== *)
(** * The provider boundary (the part of @google/genai the source uses) *)
(* ================================================================== *)

Module GenAI.

(** [Blob], [Part], [Content], [Candidate]: every field is optional in the
    SDK's declarations. *)
Record Blob : Type := { mimeType : option string; data : option string }.

Record Part : Type := { inlineData : option Blob; text : option string }.

Record Content : Type := { parts : option (list Part) }.

Record Candidate : Type := { content : option Content }.

(** [Schema], as far as [RESPONSE_SCHEMA] uses it. *)
#[warnings="-register-all"] Inductive Schema : Type :=
| STRING (description : option string)
| ARRAY (description : option string) (items : Schema)
| OBJECT (properties : list (string * Schema)) (required : list string).

Record GenerateContentConfig : Type :=
  { systemInstruction : string;
    responseMimeType : string;
    responseSchema : Schema }.

Record GenerateContentParameters : Type :=
  { model : string;
    contents : Content;
    config : option GenerateContentConfig }.

(** [GenerateContentResponse]: the [text] accessor and [candidates]. *)
Module Response.
Record t : Type :=
  { text : option string;
    candidates : option (list Candidate) }.
End Response.

(** A request part carrying inline data, and one carrying text. *)
Definition inlinePart (mime payload : string) : Part :=
  {| inlineData := Some {| mimeType := Some mime; data := Some payload |};
     text := None |}.

Definition textPart (s : string) : Part :=
  {| inlineData := None; text := Some s |}.

End GenAI.
Import GenAI.

(** What a rejected call of the provider carries (an error of the transport or
    of the API); the source never looks inside. *)
Definition ProviderError : Type := string.

(** Values thrown inside the service.  An [Error] is one the source creates
    with [new Error(message)]; the other constructors are values created
    elsewhere, which keeps apart objects that JavaScript keeps apart by
    identity. *)
Inductive exn : Type :=
| Rejected (reason : ProviderError)   (* the awaited provider call rejected *)
| Error (message : string)            (* new Error(message) *)
| SyntaxError                         (* thrown by JSON.parse *)
| TypeError (reading : string).       (* property read on undefined *)

(** The completion of an async function of the service: what it wrote with
    [console.error] and whether its promise rejected ([inl]) or resolved
    ([inr]). *)
Record Completion (A : Type) : Type :=
  { console : list (string * exn);
    outcome : exn + A }.

(** [try { body } catch (error) { console.error(label, error); throw error; }] *)
Definition log_and_rethrow {A : Type} (label : string) (body : exn + A)
  : Completion A :=
  match body with
  | inl error => {| console := [(label, error)]; outcome := inl error |}
  | inr v => {| console := []; outcome := inr v |}
  end.

(* ================================================================== *)
(** * src/services/geminiService.ts *)
(* ================================================================== *)

Definition BASE_SYSTEM_INSTRUCTION : string :=
  JS.LF ++
  "You are an expert professional stylist and barber with deep knowledge of face shapes, aesthetics, and grooming." ++ JS.LF ++
  "Your task is to analyze a user's facial image and provide personalized recommendations." ++ JS.LF ++
  "1. Identify the user's face shape (e.g., Oval, Round, Square, Diamond, Heart, Oblong)." ++ JS.LF ++
  "2. Analyze key facial features (jawline, forehead, cheekbones)." ++ JS.LF ++
  "3. Recommend styles based on the specific request mode." ++ JS.LF ++
  "4. Provide 3-4 general grooming or styling tips." ++ JS.LF ++
  JS.LF ++
  "Be specific about WHY a style works (e.g., " ++ JS.DQ ++
  "Adds volume to top to elongate a round face" ++ JS.DQ ++ ")." ++ JS.LF.

(** The three fields every recommended style must have. *)
Definition style_item (name_d description_d : string) : Schema :=
  OBJECT
    [ ("name", STRING (Some name_d));
      ("description", STRING (Some description_d));
      ("reasoning", STRING (Some "Why this suits the user.")) ]
    [ "name"; "description"; "reasoning" ].

Definition RESPONSE_SCHEMA : Schema :=
  OBJECT
    [ ("faceShape",
        STRING (Some "The identified shape of the face (e.g., Oval, Square)."));
      ("faceAnalysis",
        STRING (Some "A brief analysis of the facial features contributing to this shape."));
      ("hairstyles",
        ARRAY (Some "Recommended hairstyles. Empty if facial hair only.")
          (style_item "Name of the hairstyle." "Description of the cut."));
      ("facialHair",
        ARRAY (Some "Recommended beard or facial hair styles. Empty if hairstyle only.")
          (style_item "Name of the style." "Description of the style."));
      ("combinations",
        ARRAY (Some "Recommended combinations. Empty if single mode selected.")
          (OBJECT
             [ ("name", STRING (Some "Creative name for the combination."));
               ("hairstyle", STRING (Some "The specific hairstyle used in this combination."));
               ("facialHair", STRING (Some "The specific facial hair style used."));
               ("description", STRING (Some "Overall description of the look."));
               ("reasoning", STRING (Some "Why this combination works together.")) ]
             [ "name"; "hairstyle"; "facialHair"; "description"; "reasoning" ]));
      ("groomingTips",
        ARRAY (Some "General grooming tips.") (STRING None)) ]
    [ "faceShape"; "faceAnalysis"; "hairstyles"; "facialHair"; "combinations";
      "groomingTips" ].

(** [base64Image.split(',')[1] || base64Image], the expression both functions
    bind to [cleanBase64] ("Remove header if present"). *)
Definition cleanBase64 (base64Image : string) : string :=
  JS.or_else (JS.index (JS.split "," base64Image) 1) base64Image.

(** The [if / else if / else] on [mode] that sets [modeInstruction]. *)
Definition modeInstruction (mode : AnalysisMode) : string :=
  match mode with
  | HAIRSTYLE_ONLY =>
      "FOCUS ONLY ON HAIRSTYLES. Return an empty array for 'facialHair'. Populate 'hairstyles' with 4-5 options. Populate 'combinations' with 3 distinct hairstyle-only transformations (leave facialHair as empty string in combinations)."
  | FACIAL_HAIR_ONLY =>
      "FOCUS ONLY ON FACIAL HAIR. Return an empty array for 'hairstyles'. Populate 'facialHair' with 4-5 options. Populate 'combinations' with 3 distinct facial-hair-only transformations (leave hairstyle as empty string in combinations)."
  | COMPLETE =>
      "Recommend 3-4 specific hairstyles, 3-4 specific facial hair styles, and 3 distinct 'Look Combinations' pairing them together."
  end.

Definition fullSystemInstruction (mode : AnalysisMode) : string :=
  BASE_SYSTEM_INSTRUCTION ++ JS.LF ++ JS.LF ++ "CURRENT MODE: " ++
  modeInstruction mode.

(** The argument of [ai.models.generateContent] in [analyzeFace]. *)
Definition analyzeFace_request (base64Image : string) (mode : AnalysisMode)
  : GenerateContentParameters :=
  {| model := "gemini-2.5-flash";
     contents :=
       {| parts := Some
            [ inlinePart "image/jpeg" (cleanBase64 base64Image);
              textPart "Analyze this face and recommend styles based on the mode provided in system instructions." ] |};
     config := Some
       {| systemInstruction := fullSystemInstruction mode;
          responseMimeType := "application/json";
          responseSchema := RESPONSE_SCHEMA |} |}.

(** The argument of [ai.models.generateContent] in [generateLookPreview]. *)
Definition generateLookPreview_request
  (originalBase64 combinationDescription : string) : GenerateContentParameters :=
  {| model := "gemini-2.5-flash-image";
     contents :=
       {| parts := Some
            [ inlinePart "image/jpeg" (cleanBase64 originalBase64);
              textPart
                ("Edit this image to show the person with the following style: "
                 ++ combinationDescription ++ ". " ++ JS.LF ++
                 "            Maintain the person's original identity, face shape, skin tone, and lighting. "
                 ++ JS.LF ++
                 "            Make it look like a photorealistic after-haircut photo.") ] |};
     config := None |}.

(** The [for (const part of ...parts)] loop of [generateLookPreview]: the data
    of the first part whose [inlineData] and [inlineData.data] are truthy. *)
Fixpoint first_inline_data (ps : list Part) : option string :=
  match ps with
  | [] => None
  | part :: rest =>
      match inlineData part with
      | Some blob =>
          if JS.truthy (data blob) then data blob else first_inline_data rest
      | None => first_inline_data rest
      end
  end.

(** The statements after the awaited call in [generateLookPreview]:
    [response.candidates && response.candidates[0].content.parts] guards the
    loop; reading [.content] of a missing first candidate, or [.parts] of a
    missing content, throws. *)
Definition extract_image (response : Response.t) : exn + string :=
  match Response.candidates response with
  | None => inl (Error "No image generated.")
  | Some cands =>
      match JS.index cands 0 with
      | None => inl (TypeError "content")
      | Some candidate =>
          match content candidate with
          | None => inl (TypeError "parts")
          | Some c =>
              match parts c with
              | None => inl (Error "No image generated.")
              | Some ps =>
                  match first_inline_data ps with
                  | Some d => inr ("data:image/png;base64," ++ d)
                  | None => inl (Error "No image generated.")
                  end
              end
          end
      end
  end.

Section Service.

(** [JSON.parse]: [None] when it throws. *)
Variable JSON_parse : string -> option JSON.

(** [await ai.models.generateContent(request)] on a fresh client: the call
    rejects ([inl]) or resolves with a response ([inr]). *)
Variable generateContent : GenerateContentParameters -> ProviderError + Response.t.

(** The statements after the awaited call in [analyzeFace]. *)
Definition parse_analysis (response : Response.t) : exn + JSON :=
  if JS.truthy (Response.text response) then
    match Response.text response with
    | Some t =>
        match JSON_parse t with
        | Some v => inr v
        | None => inl SyntaxError
        end
    | None => inl (Error "No response text received from Gemini.")
    end
  else inl (Error "No response text received from Gemini.").

Definition analyzeFace (base64Image : string) (mode : AnalysisMode)
  : Completion JSON :=
  log_and_rethrow "Gemini Analysis Error:"
    match generateContent (analyzeFace_request base64Image mode) with
    | inl e => inl (Rejected e)
    | inr response => parse_analysis response
    end.

Definition generateLookPreview (originalBase64 combinationDescription : string)
  : Completion string :=
  log_and_rethrow "Image Generation Error:"
    match generateContent
            (generateLookPreview_request originalBase64 combinationDescription) with
    | inl e => inl (Rejected e)
    | inr response => extract_image response
    end.

End Service.

(* ================================================================== *)
(** * src/components/StylePlayground.tsx *)
(* ================================================================== *)

Module StylePlayground.

Inductive ViewMode : Type := recommended | explore.

(** The component's [useState] cells. *)
Record State : Type :=
  { viewMode : ViewMode;
    selectedHair : option string;
    selectedBeard : option string;
    isGenerating : bool;
    generatedImage : option string;
    error : option string;
    sliderPosition : Z;
    containerWidth : Z }.

(** What a run of [handleVisualize] does, in program order: calls of the state
    setters, the call of the Preview Generator with its two arguments, and
    [console.error]. *)
Inductive Effect : Type :=
| setIsGenerating (b : bool)
| setError (e : option string)
| setGeneratedImage (image : option string)
| setSliderPosition (n : Z)
| call_generateLookPreview (originalBase64 combinationDescription : string)
| console_error (err : exn).

(** The state after one effect: a setter replaces its cell, the others leave
    the state alone. *)
Definition apply_effect (st : State) (e : Effect) : State :=
  match e with
  | setIsGenerating b =>
      {| viewMode := viewMode st; selectedHair := selectedHair st;
         selectedBeard := selectedBeard st; isGenerating := b;
         generatedImage := generatedImage st; error := error st;
         sliderPosition := sliderPosition st;
         containerWidth := containerWidth st |}
  | setError m =>
      {| viewMode := viewMode st; selectedHair := selectedHair st;
         selectedBeard := selectedBeard st; isGenerating := isGenerating st;
         generatedImage := generatedImage st; error := m;
         sliderPosition := sliderPosition st;
         containerWidth := containerWidth st |}
  | setGeneratedImage image =>
      {| viewMode := viewMode st; selectedHair := selectedHair st;
         selectedBeard := selectedBeard st; isGenerating := isGenerating st;
         generatedImage := image; error := error st;
         sliderPosition := sliderPosition st;
         containerWidth := containerWidth st |}
  | setSliderPosition n =>
      {| viewMode := viewMode st; selectedHair := selectedHair st;
         selectedBeard := selectedBeard st; isGenerating := isGenerating st;
         generatedImage := generatedImage st; error := error st;
         sliderPosition := n;
         containerWidth := containerWidth st |}
  | call_generateLookPreview _ _ => st
  | console_error _ => st
  end.

Definition run (st : State) (trace : list Effect) : State :=
  fold_left apply_effect trace st.

(** The requests to the Preview Generator that a trace contains. *)
Fixpoint preview_requests (trace : list Effect) : list (string * string) :=
  match trace with
  | [] => []
  | call_generateLookPreview img d :: rest => (img, d) :: preview_requests rest
  | _ :: rest => preview_requests rest
  end.

(** [selectedHair ? `Hairstyle: ${selectedHair}` : ''] *)
Definition hairPart (st : State) : string :=
  if JS.truthy (selectedHair st) then
    match selectedHair st with Some h => "Hairstyle: " ++ h | None => "" end
  else "".

(** [selectedBeard ? `Facial Hair: ${selectedBeard}` : ''] *)
Definition beardPart (st : State) : string :=
  if JS.truthy (selectedBeard st) then
    match selectedBeard st with Some b => "Facial Hair: " ++ b | None => "" end
  else "".

(** [`${hairPart}. ${beardPart}. Create a cohesive look.`] *)
Definition description (st : State) : string :=
  hairPart st ++ ". " ++ beardPart st ++ ". Create a cohesive look.".

(** The [disabled] attribute of the action button. *)
Definition visualize_disabled (st : State) : bool :=
  isGenerating st ||
  (negb (JS.truthy (selectedHair st)) && negb (JS.truthy (selectedBeard st))).

Section Component.

Variable generateContent : GenerateContentParameters -> ProviderError + Response.t.

(** The prop [originalImageBase64]. *)
Variable originalImageBase64 : string.

Definition handleVisualize (st : State) : list Effect :=
  if negb (JS.truthy (Some (hairPart st))) && negb (JS.truthy (Some (beardPart st)))
  then []
  else
    [ setIsGenerating true; setError None;
      call_generateLookPreview originalImageBase64 (description st) ]
    ++ match outcome (generateLookPreview generateContent
                        originalImageBase64 (description st)) with
       | inr imageUrl => [ setGeneratedImage (Some imageUrl); setSliderPosition 50 ]
       | inl err =>
           [ console_error err;
             setError (Some "Could not generate preview. Please try again.") ]
       end
    ++ [ setIsGenerating false ].

End Component.

End StylePlayground.

(* ================================================================== *)
(** * A reference [JSON.parse] *)
(* ================================================================== *)

(** [JSON.parse] belongs to the language, not to the repository: the service
    is modelled over any parser (the variable [JSON_parse] above).  To run
    [analyzeFace] on concrete response texts this module gives a parser of
    the JSON grammar (ECMA-404) over the characters of the model; a [\u]
    escape is accepted when it names a character below 256. *)
Module JsonText.

Local Open Scope nat_scope.

Definition backslash : ascii := Ascii.ascii_of_nat 92.

Definition is_ws (c : ascii) : bool :=
  Ascii.eqb c " " || Ascii.eqb c (Ascii.ascii_of_nat 9) ||
  Ascii.eqb c (Ascii.ascii_of_nat 10) || Ascii.eqb c (Ascii.ascii_of_nat 13).

Definition is_digit (c : ascii) : bool :=
  (48 <=? Ascii.nat_of_ascii c) && (Ascii.nat_of_ascii c <=? 57).

Fixpoint skip_ws (s : string) : string :=
  match s with
  | String c r => if is_ws c then skip_ws r else s
  | EmptyString => s
  end.

(** The longest prefix of digits, and the rest. *)
Fixpoint digits (s : string) : string * string :=
  match s with
  | String c r =>
      if is_digit c then let (d, rest) := digits r in (String c d, rest)
      else (EmptyString, s)
  | EmptyString => (EmptyString, s)
  end.

Definition hex_value (c : ascii) : option nat :=
  let n := Ascii.nat_of_ascii c in
  if (48 <=? n) && (n <=? 57) then Some (n - 48)
  else if (65 <=? n) && (n <=? 70) then Some (n - 55)
  else if (97 <=? n) && (n <=? 102) then Some (n - 87)
  else None.

Definition hex4 (a b c d : ascii) : option nat :=
  match hex_value a, hex_value b, hex_value c, hex_value d with
  | Some x, Some y, Some z, Some w => Some (((x * 16 + y) * 16 + z) * 16 + w)
  | _, _, _, _ => None
  end.

(** The character an escape letter stands for. *)
Definition simple_escape (e : ascii) : option ascii :=
  if Ascii.eqb e JS.dquote then Some JS.dquote
  else if Ascii.eqb e backslash then Some backslash
  else if Ascii.eqb e "/" then Some "/"%char
  else if Ascii.eqb e "b" then Some (Ascii.ascii_of_nat 8)
  else if Ascii.eqb e "f" then Some (Ascii.ascii_of_nat 12)
  else if Ascii.eqb e "n" then Some (Ascii.ascii_of_nat 10)
  else if Ascii.eqb e "r" then Some (Ascii.ascii_of_nat 13)
  else if Ascii.eqb e "t" then Some (Ascii.ascii_of_nat 9)
  else None.

(** The characters of a string literal after its opening quote, up to the
    closing quote, and the rest of the text. *)
Fixpoint string_body (s : string) : option (string * string) :=
  match s with
  | EmptyString => None
  | String c r =>
      if Ascii.eqb c JS.dquote then Some (EmptyString, r)
      else if Ascii.eqb c backslash then
        match r with
        | String e r' =>
            if Ascii.eqb e "u" then
              match r' with
              | String h1 (String h2 (String h3 (String h4 r''))) =>
                  match hex4 h1 h2 h3 h4 with
                  | Some n =>
                      if n <? 256 then
                        match string_body r'' with
                        | Some (body, rest) =>
                            Some (String (Ascii.ascii_of_nat n) body, rest)
                        | None => None
                        end
                      else None
                  | None => None
                  end
              | _ => None
              end
            else
              match simple_escape e with
              | Some x =>
                  match string_body r' with
                  | Some (body, rest) => Some (String x body, rest)
                  | None => None
                  end
              | None => None
              end
        | EmptyString => None
        end
      else if Ascii.nat_of_ascii c <? 32 then None
      else
        match string_body r with
        | Some (body, rest) => Some (String c body, rest)
        | None => None
        end
  end.

(** A number: an optional minus sign, an integer part without leading zero,
    an optional fraction and an optional exponent; the lexeme and the rest. *)
Definition number (s : string) : option (string * string) :=
  let (sign, s1) :=
    match s with
    | String c r => if Ascii.eqb c "-" then ("-", r) else ("", s)
    | EmptyString => ("", s)
    end in
  let (int, s2) := digits s1 in
  match int with
  | EmptyString => None
  | String d more =>
      if Ascii.eqb d "0" && negb (String.eqb more "") then None
      else
        let frac :=
          match s2 with
          | String c r =>
              if Ascii.eqb c "." then
                let (f, s3) := digits r in
                if String.eqb f "" then None else Some ("." ++ f, s3)
              else Some ("", s2)
          | EmptyString => Some ("", s2)
          end in
        match frac with
        | None => None
        | Some (f, s3) =>
            match s3 with
            | String c r =>
                if Ascii.eqb c "e" || Ascii.eqb c "E" then
                  let (esign, r1) :=
                    match r with
                    | String g r0 =>
                        if Ascii.eqb g "+" || Ascii.eqb g "-"
                        then (String g "", r0) else ("", r)
                    | EmptyString => ("", r)
                    end in
                  let (ex, s4) := digits r1 in
                  if String.eqb ex "" then None
                  else Some (sign ++ int ++ f ++ String c esign ++ ex, s4)
                else Some (sign ++ int ++ f, s3)
            | EmptyString => Some (sign ++ int ++ f, s3)
            end
        end
  end.

(** [s] starts with [word]: the rest of [s] after it. *)
Definition keyword (word s : string) : option string :=
  if String.prefix word s
  then Some (String.substring (String.length word)
               (String.length s - String.length word) s)
  else None.

Fixpoint value (fuel : nat) (s : string) : option (JSON * string) :=
  match fuel with
  | O => None
  | S fuel' =>
      match skip_ws s with
      | EmptyString => None
      | String c r as s0 =>
          if Ascii.eqb c "{" then
            match skip_ws r with
            | String d r' =>
                if Ascii.eqb d "}" then Some (JObject [], r')
                else match members fuel' (String d r') with
                     | Some (ms, rest) => Some (JObject ms, rest)
                     | None => None
                     end
            | EmptyString => None
            end
          else if Ascii.eqb c "[" then
            match skip_ws r with
            | String d r' =>
                if Ascii.eqb d "]" then Some (JArray [], r')
                else match elements fuel' (String d r') with
                     | Some (vs, rest) => Some (JArray vs, rest)
                     | None => None
                     end
            | EmptyString => None
            end
          else if Ascii.eqb c JS.dquote then
            match string_body r with
            | Some (str, rest) => Some (JString str, rest)
            | None => None
            end
          else if Ascii.eqb c "t" then
            option_map (fun rest => (JBool true, rest)) (keyword "true" s0)
          else if Ascii.eqb c "f" then
            option_map (fun rest => (JBool false, rest)) (keyword "false" s0)
          else if Ascii.eqb c "n" then
            option_map (fun rest => (JNull, rest)) (keyword "null" s0)
          else
            option_map (fun '(lexeme, rest) => (JNumber lexeme, rest)) (number s0)
      end
  end

with elements (fuel : nat) (s : string) : option (list JSON * string) :=
  match fuel with
  | O => None
  | S fuel' =>
      match value fuel' s with
      | Some (v, r) =>
          match skip_ws r with
          | String c r' =>
              if Ascii.eqb c "," then
                match elements fuel' r' with
                | Some (vs, rest) => Some (v :: vs, rest)
                | None => None
                end
              else if Ascii.eqb c "]" then Some ([v], r')
              else None
          | EmptyString => None
          end
      | None => None
      end
  end

with members (fuel : nat) (s : string) : option (list (string * JSON) * string) :=
  match fuel with
  | O => None
  | S fuel' =>
      match skip_ws s with
      | String q r =>
          if Ascii.eqb q JS.dquote then
            match string_body r with
            | Some (key, r1) =>
                match skip_ws r1 with
                | String colon r2 =>
                    if Ascii.eqb colon ":" then
                      match value fuel' r2 with
                      | Some (v, r3) =>
                          match skip_ws r3 with
                          | String c r4 =>
                              if Ascii.eqb c "," then
                                match members fuel' r4 with
                                | Some (ms, rest) => Some ((key, v) :: ms, rest)
                                | None => None
                                end
                              else if Ascii.eqb c "}" then Some ([(key, v)], r4)
                              else None
                          | EmptyString => None
                          end
                      | None => None
                      end
                    else None
                | EmptyString => None
                end
            | None => None
            end
          else None
      | EmptyString => None
      end
  end.

(** [JSON.parse(text)]: one value, then only white space. *)
Definition parse (text : string) : option JSON :=
  match value (2 * String.length text + 2) text with
  | Some (v, rest) =>
      match skip_ws rest with
      | EmptyString => Some v
      | String _ _ => None
      end
  | None => None
  end.

(** Response texts are written below with ['] standing for the double
    quote. *)
Fixpoint quoted (s : string) : string :=
  match s with
  | EmptyString => EmptyString
  | String c r => String (if Ascii.eqb c "'" then JS.dquote else c) (quoted r)
  end.

End JsonText.

(* ================================================================== *)
(** * Vocabulary of the specification *)
(* ================================================================== *)

Module Spec.

(** The per-mode invariant the specification states for an [AnalysisResult]:
    [hairstyles] empty for FACIAL_HAIR_ONLY, [facialHair] empty for
    HAIRSTYLE_ONLY, and for COMPLETE three or four entries in each list and
    exactly three combinations. *)
Definition between (lo hi : nat) (n : option nat) : bool :=
  match n with
  | Some k => Nat.leb lo k && Nat.leb k hi
  | None => false
  end.

Definition mode_invariant (mode : AnalysisMode) (result : JSON) : bool :=
  match mode with
  | FACIAL_HAIR_ONLY => between 0 0 (Json.array_length "hairstyles" result)
  | HAIRSTYLE_ONLY => between 0 0 (Json.array_length "facialHair" result)
  | COMPLETE =>
      between 3 4 (Json.array_length "hairstyles" result) &&
      between 3 4 (Json.array_length "facialHair" result) &&
      between 3 3 (Json.array_length "combinations" result)
  end.

(** The inline blobs a request carries, in part order. *)
Definition inline_blobs (request : GenerateContentParameters) : list Blob :=
  match parts (contents request) with
  | Some ps =>
      flat_map (fun p => match inlineData p with Some b => [b] | None => [] end) ps
  | None => []
  end.

(** The image payloads a request transmits, and the MIME types it declares
    for them. *)
Definition transmitted (request : GenerateContentParameters) : list (option string) :=
  map data (inline_blobs request).

Definition declared_mime (request : GenerateContentParameters) : list (option string) :=
  map mimeType (inline_blobs request).

(** The alphabet of a base64 payload: letters, digits, [+], [/] and the
    padding [=]. *)
Definition base64_char (c : ascii) : bool :=
  let n := Ascii.nat_of_ascii c in
  (Nat.leb 65 n && Nat.leb n 90) || (Nat.leb 97 n && Nat.leb n 122) ||
  (Nat.leb 48 n && Nat.leb n 57) ||
  Ascii.eqb c "+" || Ascii.eqb c "/" || Ascii.eqb c "=".

Fixpoint base64 (s : string) : bool :=
  match s with
  | EmptyString => true
  | String c r => base64_char c && base64 r
  end.

(** A data-URL header [data:<mediatype>;base64,]; the media type of a data
    URL holds no comma. *)
Definition data_url_header (mediatype : string) : string :=
  "data:" ++ mediatype ++ ";base64,".

(** A syntactically valid PNG data URI: the fixed prefix, then a base64
    payload. *)
Definition png_prefix : string := "data:image/png;base64,".

Definition png_data_uri (s : string) : bool :=
  String.prefix png_prefix s &&
  base64 (String.substring (String.length png_prefix)
            (String.length s - String.length png_prefix) s).

(** The content parts of a response: those of its first candidate. *)
Definition content_parts (response : Response.t) : list Part :=
  match Response.candidates response with
  | Some (candidate :: _) =>
      match content candidate with
      | Some c => match parts c with Some ps => ps | None => [] end
      | None => []
      end
  | _ => []
  end.

(** A part carries inline image bytes: it has inline data that is not
    empty. *)
Definition carries_image (p : Part) : bool :=
  match inlineData p with
  | Some blob => JS.truthy (data blob)
  | None => false
  end.

Definition image_data (p : Part) : option string :=
  match inlineData p with
  | Some blob => data blob
  | None => None
  end.

(** The error of the Preview Generator when no image came back, and the one
    of the Analysis Client when no text came back. *)
Definition no_image_generated : exn := Error "No image generated.".

Definition no_response : exn := Error "No response text received from Gemini.".

End Spec.

(* ================================================================== *)
(** * src/components/StylePlayground.tsx: the other handlers and the view *)
(* ================================================================== *)

Module Types.

(** [StyleRecommendation] of src/types.ts. *)
Record StyleRecommendation : Type :=
  { name : string;
    description : string;
    reasoning : string }.

End Types.

Module Component.

Import StylePlayground.

Definition ALL_HAIRSTYLES : list string :=
  [ "Afro"; "Braids / Cornrows"; "Buzz Cut"; "Caesar Cut"; "Crew Cut";
    "Curly Hair"; "Dreadlocks"; "Fade"; "Fringe / Bangs"; "Long Wavy Flow";
    "Man Bun"; "Pompadour"; "Quiff"; "Side Part"; "Slick Back";
    "Spiky / Faux Hawk"; "Textured Crop"; "Undercut" ].

Definition ALL_FACIAL_HAIR : list string :=
  [ "Anchor Beard"; "Balbo"; "Chin Strap"; "Clean Shaven"; "Full Beard";
    "Goatee"; "Heavy Stubble"; "Mutton Chops"; "Chevron Mustache";
    "Short Boxed Beard"; "Prominent Sideburns"; "Van Dyke" ].

(** [StylePlaygroundProps] *)
Record Props : Type :=
  { hairstyles : list Types.StyleRecommendation;
    facialHair : list Types.StyleRecommendation;
    originalImageBase64 : string }.

(** The setters [handleVisualize] does not call. *)
Definition setViewMode (m : ViewMode) (st : State) : State :=
  {| viewMode := m; selectedHair := selectedHair st;
     selectedBeard := selectedBeard st; isGenerating := isGenerating st;
     generatedImage := generatedImage st; error := error st;
     sliderPosition := sliderPosition st;
     containerWidth := containerWidth st |}.

Definition setSelectedHair (h : option string) (st : State) : State :=
  {| viewMode := viewMode st; selectedHair := h;
     selectedBeard := selectedBeard st; isGenerating := isGenerating st;
     generatedImage := generatedImage st; error := error st;
     sliderPosition := sliderPosition st;
     containerWidth := containerWidth st |}.

Definition setSelectedBeard (b : option string) (st : State) : State :=
  {| viewMode := viewMode st; selectedHair := selectedHair st;
     selectedBeard := b; isGenerating := isGenerating st;
     generatedImage := generatedImage st; error := error st;
     sliderPosition := sliderPosition st;
     containerWidth := containerWidth st |}.

Definition setContainerWidth (w : Z) (st : State) : State :=
  {| viewMode := viewMode st; selectedHair := selectedHair st;
     selectedBeard := selectedBeard st; isGenerating := isGenerating st;
     generatedImage := generatedImage st; error := error st;
     sliderPosition := sliderPosition st;
     containerWidth := w |}.

(** [name === selected] for [selected : string | null]. *)
Definition strict_eq (name : string) (selected : option string) : bool :=
  match selected with
  | Some s => String.eqb name s
  | None => false
  end.

(** The lists the two selection areas display. *)
Definition displayHairstyles (props : Props) (st : State) : list string :=
  match viewMode st with
  | recommended => map Types.name (hairstyles props)
  | explore => ALL_HAIRSTYLES
  end.

Definition displayFacialHair (props : Props) (st : State) : list string :=
  match viewMode st with
  | recommended => map Types.name (facialHair props)
  | explore => ALL_FACIAL_HAIR
  end.

(** [onClick] of the button of a hairstyle, and of a facial-hair style:
    [setSelectedHair(name === selectedHair ? null : name)]. *)
Definition clickHairstyle (name : string) (st : State) : State :=
  setSelectedHair (if strict_eq name (selectedHair st) then None else Some name) st.

Definition clickFacialHair (name : string) (st : State) : State :=
  setSelectedBeard (if strict_eq name (selectedBeard st) then None else Some name) st.

Definition handleReset (st : State) : State :=
  setContainerWidth 0 (apply_effect (apply_effect st (setGeneratedImage None))
                                    (setError None)).

(** The effect hooked on [generatedImage], and the callback [updateWidth] it
    gives the resize observer; [offsetWidth] is [containerRef.current] when it
    is set, with its width. *)
Definition updateWidth (offsetWidth : option Z) (st : State) : State :=
  match offsetWidth with
  | Some w => setContainerWidth w st
  | None => st
  end.

Definition measureEffect (offsetWidth : option Z) (st : State) : State :=
  if negb (JS.truthy (generatedImage st)) then st
  else match offsetWidth with
       | None => st
       | Some _ => updateWidth offsetWidth st
       end.

(** A number in a template literal (the numbers of the state are integers). *)
Definition show (n : Z) : string := NilZero.string_of_int (Z.to_int n).

(** Truthiness of a number that is an integer. *)
Definition truthy_number (n : Z) : bool := negb (Z.eqb n 0).

(** ** What the component renders *)

(** A selection area: the buttons of the displayed names, each one
    highlighted or not; or the notice; or nothing ([false] in JSX). *)
Inductive Area : Type :=
| Buttons (buttons : list (string * bool))
| Notice (message : string)
| Nothing.

Definition area (names : list string) (selected : option string)
  (mode : ViewMode) (notice : string) : Area :=
  if Nat.ltb 0 (List.length names)
  then Buttons (map (fun n => (n, strict_eq n selected)) names)
  else match mode with
       | recommended => Notice notice
       | explore => Nothing
       end.

Definition hairArea (props : Props) (st : State) : Area :=
  area (displayHairstyles props st) (selectedHair st) (viewMode st)
    "No hairstyle suggestions available for this analysis mode.".

Definition beardArea (props : Props) (st : State) : Area :=
  area (displayFacialHair props st) (selectedBeard st) (viewMode st)
    "No facial hair suggestions available for this analysis mode.".

(** The action block, rendered when [!generatedImage]: the error line when
    [error] is truthy, and the button. *)
Record ActionBlock : Type :=
  { errorLine : option string;
    disabled : bool;
    label : string }.

Definition actionBlock (st : State) : option ActionBlock :=
  if negb (JS.truthy (generatedImage st)) then
    Some {| errorLine := if JS.truthy (error st) then error st else None;
            disabled := visualize_disabled st;
            label := if isGenerating st then "Generating Custom Look..."
                     else "Visualize Custom Look" |}
  else None.

(** The result pane, rendered when [generatedImage] is truthy: the original
    image behind, the generated one clipped in front, the slider. *)
Record ResultPane : Type :=
  { backgroundSrc : string;
    clipWidth : string;
    overlaySrc : string;
    overlayWidth : string;
    overlayOpacity : Z;
    handleLeft : string;
    rangeValue : Z }.

Definition resultPane (props : Props) (st : State) : option ResultPane :=
  if JS.truthy (generatedImage st) then
    match generatedImage st with
    | Some image =>
        Some {| backgroundSrc := originalImageBase64 props;
                clipWidth := show (sliderPosition st) ++ "%";
                overlaySrc := image;
                overlayWidth :=
                  if truthy_number (containerWidth st)
                  then show (containerWidth st) ++ "px" else "100%";
                overlayOpacity :=
                  if truthy_number (containerWidth st) then 1%Z else 0%Z;
                handleLeft := show (sliderPosition st) ++ "%";
                rangeValue := sliderPosition st |}
    | None => None
    end
  else None.

(** ** Sharing and downloading *)

(** The anchor [downloadImage] builds, and the argument of
    [navigator.share]. *)
Record Anchor : Type := { href : string; download : string }.

Record ShareData : Type :=
  { title : string;
    shareText : string;
    fileSource : string;      (* the URL whose blob fills the file *)
    fileName : string;
    fileType : string }.

(** What the browser is at the time of the call: whether [navigator.share]
    exists and how a call of it ends, how fetching a URL and reading its blob
    ends, and the clock. *)
Definition BrowserError : Type := string.

Record Browser : Type :=
  { share : option (ShareData -> option BrowserError);
    fetch : string -> option BrowserError;
    getTime : Z }.

Inductive BrowserEffect : Type :=
| fetched (url : string)
| shared (payload : ShareData)
| logged (label : string) (err : BrowserError)
| appendChild (link : Anchor)
| click (link : Anchor)
| removeChild (link : Anchor).

Definition downloadImage (browser : Browser) (st : State) : list BrowserEffect :=
  if negb (JS.truthy (generatedImage st)) then []
  else match generatedImage st with
       | None => []
       | Some image =>
           let link :=
             {| href := image;
                download := "stylescout-custom-" ++ show (getTime browser) ++ ".png" |} in
           [ appendChild link; click link; removeChild link ]
       end.

Definition handleShare (browser : Browser) (st : State) : list BrowserEffect :=
  if negb (JS.truthy (generatedImage st)) then []
  else match generatedImage st with
       | None => []
       | Some image =>
           match share browser with
           | Some navigator_share =>
               fetched image ::
               match fetch browser image with
               | Some err =>
                   logged "Error sharing:" err :: downloadImage browser st
               | None =>
                   let payload :=
                     {| title := "My Custom StyleScout Look";
                        shareText :=
                          "Checking out this custom look: " ++
                          JS.or_else (selectedHair st) "" ++ " + " ++
                          JS.or_else (selectedBeard st) "";
                        fileSource := image;
                        fileName := "custom-look.png";
                        fileType := "image/png" |} in
                   shared payload ::
                   match navigator_share payload with
                   | Some err =>
                       logged "Error sharing:" err :: downloadImage browser st
                   | None => []
                   end
               end
           | None => downloadImage browser st
           end
       end.

(** The clicks a trace makes. *)
Fixpoint clicks (trace : list BrowserEffect) : list Anchor :=
  match trace with
  | [] => []
  | click link :: rest => link :: clicks rest
  | _ :: rest => clicks rest
  end.

End Component.

(* ================================================================== *)
(** * Concrete providers, responses and playground states *)
(* ================================================================== *)

Module Sample.

(** A provider that resolves every call with the same response, and one that
    rejects every call. *)
Definition resolves (response : Response.t)
  : GenerateContentParameters -> ProviderError + Response.t :=
  fun _ => inr response.

Definition rejects (reason : ProviderError)
  : GenerateContentParameters -> ProviderError + Response.t :=
  fun _ => inl reason.

Definition text_response (t : option string) : Response.t :=
  {| Response.text := t; Response.candidates := None |}.

Definition candidates_response (cands : list Candidate) : Response.t :=
  {| Response.text := None; Response.candidates := Some cands |}.

Definition image_part (payload : string) : Part :=
  {| inlineData := Some {| mimeType := Some "image/png"; data := Some payload |};
     text := None |}.

Definition candidate_of (ps : list Part) : Candidate :=
  {| content := Some {| parts := Some ps |} |}.

(** A candidate without content, as the provider returns it when it stops
    before producing any. *)
Definition empty_candidate : Candidate := {| content := None |}.

(** An analysis with one hairstyle, one facial-hair style and no
    combination. *)
Definition analysis_text : string :=
  JsonText.quoted
    "{'faceShape':'Oval','faceAnalysis':'Balanced proportions.','hairstyles':[{'name':'Quiff','description':'Short sides, volume on top.','reasoning':'Adds height.'}],'facialHair':[{'name':'Goatee','description':'Chin beard.','reasoning':'Defines the chin.'}],'combinations':[],'groomingTips':['Moisturise daily.']}".

Definition analysis_value : JSON :=
  JObject
    [ ("faceShape", JString "Oval");
      ("faceAnalysis", JString "Balanced proportions.");
      ("hairstyles",
        JArray [ JObject [ ("name", JString "Quiff");
                           ("description", JString "Short sides, volume on top.");
                           ("reasoning", JString "Adds height.") ] ]);
      ("facialHair",
        JArray [ JObject [ ("name", JString "Goatee");
                           ("description", JString "Chin beard.");
                           ("reasoning", JString "Defines the chin.") ] ]);
      ("combinations", JArray []);
      ("groomingTips", JArray [ JString "Moisturise daily." ]) ].

(** The playground before any generation, with the given selections. *)
Definition selecting (hair beard : option string) : StylePlayground.State :=
  {| StylePlayground.viewMode := StylePlayground.recommended;
     StylePlayground.selectedHair := hair;
     StylePlayground.selectedBeard := beard;
     StylePlayground.isGenerating := false;
     StylePlayground.generatedImage := None;
     StylePlayground.error := None;
     StylePlayground.sliderPosition := 50%Z;
     StylePlayground.containerWidth := 0%Z |}.

End Sample.

(* ================================================================== *)
(** * Variations of a response, and more concrete inputs *)
(* ================================================================== *)

Module Variation.

(** The same part, its inline data declared with another MIME type. *)
Definition relabel_part (mime : option string) (p : Part) : Part :=
  {| inlineData :=
       match inlineData p with
       | Some blob => Some {| mimeType := mime; data := data blob |}
       | None => None
       end;
     text := text p |}.

Definition relabel_candidate (mime : option string) (c : Candidate) : Candidate :=
  {| content :=
       match content c with
       | Some ct =>
           Some {| parts := option_map (map (relabel_part mime)) (parts ct) |}
       | None => None
       end |}.

(** The same response, every inline blob declared with the MIME type
    [mime]. *)
Definition relabel (mime : option string) (response : Response.t) : Response.t :=
  {| Response.text := Response.text response;
     Response.candidates :=
       option_map (map (relabel_candidate mime)) (Response.candidates response) |}.

(** The same response without the candidates after the first. *)
Definition first_candidate_only (response : Response.t) : Response.t :=
  {| Response.text := Response.text response;
     Response.candidates :=
       match Response.candidates response with
       | Some (c :: _) => Some [c]
       | other => other
       end |}.

(** The text of the text parts of a request. *)
Definition prompt_texts (request : GenerateContentParameters) : list string :=
  match parts (contents request) with
  | Some ps =>
      flat_map (fun p => match text p with Some t => [t] | None => [] end) ps
  | None => []
  end.

End Variation.

Module SampleUI.

Definition recommendation (n : string) : Types.StyleRecommendation :=
  {| Types.name := n; Types.description := "A cut."; Types.reasoning := "It suits." |}.

(** The props after a FACIAL_HAIR_ONLY analysis: no hairstyle recommended. *)
Definition beard_only_props : Component.Props :=
  {| Component.hairstyles := [];
     Component.facialHair := [recommendation "Goatee"; recommendation "Balbo"];
     Component.originalImageBase64 := "data:image/jpeg;base64,AAAA" |}.

(** A provider that resolves with one image after a text part. *)
Definition image_provider
  : GenerateContentParameters -> ProviderError + Response.t :=
  Sample.resolves
    (Sample.candidates_response
       [Sample.candidate_of
          [textPart "Here is the edited photo."; Sample.image_part "iVBORw0KGgo="]]).

(** The playground showing a generated image. *)
Definition showing (image : string) (width : Z) : StylePlayground.State :=
  {| StylePlayground.viewMode := StylePlayground.recommended;
     StylePlayground.selectedHair := Some "Quiff";
     StylePlayground.selectedBeard := None;
     StylePlayground.isGenerating := false;
     StylePlayground.generatedImage := Some image;
     StylePlayground.error := None;
     StylePlayground.sliderPosition := 50%Z;
     StylePlayground.containerWidth := width |}.

(** A browser without [navigator.share]; one whose share dialog the user
    dismisses; one that shares. *)
Definition desktop : Component.Browser :=
  {| Component.share := None;
     Component.fetch := fun _ => None;
     Component.getTime := 1700000000000%Z |}.

Definition dismissing : Component.Browser :=
  {| Component.share := Some (fun _ => Some "AbortError");
     Component.fetch := fun _ => None;
     Component.getTime := 1700000000000%Z |}.

Definition sharing : Component.Browser :=
  {| Component.share := Some (fun _ => None);
     Component.fetch := fun _ => None;
     Component.getTime := 1700000000000%Z |}.

End SampleUI.

(* ================================================================== *)
(** * Facts about [split] and [cleanBase64] *)
(* ================================================================== *)

Section SplitFacts.

Variable sep : ascii.

Lemma split_not_nil (s : string) : JS.split sep s <> [].
Proof.
  destruct s as [|c s]; simpl; [discriminate|].
  destruct (Ascii.eqb c sep); [discriminate|].
  destruct (JS.split sep s); discriminate.
Qed.

Lemma split_cons (c : ascii) (s : string) :
  Ascii.eqb c sep = false ->
  exists h t, JS.split sep s = h :: t /\
              JS.split sep (String c s) = String c h :: t.
Proof.
  intros Hc. simpl. rewrite Hc.
  destruct (JS.split sep s) as [|h t] eqn:E.
  - exfalso. exact (split_not_nil s E).
  - exists h, t. split; reflexivity.
Qed.

(** A string without separator is the only piece. *)
Lemma split_without_sep (s : string) :
  JS.has_char sep s = false -> JS.split sep s = [s].
Proof.
  induction s as [|c s IH]; simpl; intros H; [reflexivity|].
  apply orb_false_iff in H. destruct H as [Hc Hs].
  rewrite Hc, (IH Hs). reflexivity.
Qed.

(** The first piece ends at the first separator. *)
Lemma split_at_first_sep (a rest : string) :
  JS.has_char sep a = false ->
  JS.split sep (a ++ String sep rest) = a :: JS.split sep rest.
Proof.
  induction a as [|c a IH]; simpl; intros H.
  - rewrite Ascii.eqb_refl. reflexivity.
  - apply orb_false_iff in H. destruct H as [Hc Ha].
    rewrite Hc, (IH Ha). reflexivity.
Qed.

(** No piece holds the separator. *)
Lemma split_pieces_without_sep (s piece : string) :
  In piece (JS.split sep s) -> JS.has_char sep piece = false.
Proof.
  revert piece. induction s as [|c s IH]; simpl; intros piece Hin.
  - destruct Hin as [<-|[]]. reflexivity.
  - destruct (Ascii.eqb c sep) eqn:Hc.
    + destruct Hin as [<-|Hin]; [reflexivity | apply IH; exact Hin].
    + destruct (JS.split sep s) as [|h t] eqn:E.
      * destruct Hin as [<-|[]]. simpl. rewrite Hc. reflexivity.
      * destruct Hin as [<-|Hin].
        -- simpl. rewrite Hc. simpl. apply IH. left. reflexivity.
        -- apply IH. right. exact Hin.
Qed.

End SplitFacts.

Lemma truthy_nonempty (s : string) : s <> "" -> JS.truthy (Some s) = true.
Proof. destruct s; [intros H; exfalso; apply H; reflexivity | reflexivity]. Qed.

Lemma or_else_truthy (s fallback : string) :
  s <> "" -> JS.or_else (Some s) fallback = s.
Proof. intros H. unfold JS.or_else. rewrite (truthy_nonempty H). reflexivity. Qed.

(** An input without comma is transmitted as it is. *)
Lemma cleanBase64_without_comma (s : string) :
  JS.has_char "," s = false -> cleanBase64 s = s.
Proof.
  intros H. unfold cleanBase64. rewrite (split_without_sep _ _ H). reflexivity.
Qed.

(** What follows the first comma, up to the second one, is transmitted when
    it is not empty. *)
Lemma cleanBase64_second_piece (a b rest : string) :
  JS.has_char "," a = false ->
  JS.split "," rest = b :: nil \/ (exists t, JS.split "," rest = b :: t) ->
  b <> "" ->
  cleanBase64 (a ++ String "," rest) = b.
Proof.
  intros Ha Hsplit Hb. unfold cleanBase64.
  rewrite (split_at_first_sep _ _ _ Ha).
  destruct Hsplit as [E|[t E]]; rewrite E; simpl; apply or_else_truthy; exact Hb.
Qed.

(** When nothing stands between the first comma and the second one (or the
    end), the whole input is transmitted. *)
Lemma cleanBase64_empty_piece (a rest : string) :
  JS.has_char "," a = false ->
  (exists t, JS.split "," rest = "" :: t) ->
  cleanBase64 (a ++ String "," rest) = a ++ String "," rest.
Proof.
  intros Ha [t E]. unfold cleanBase64.
  rewrite (split_at_first_sep _ _ _ Ha), E. reflexivity.
Qed.

(** What is transmitted is the input itself or a piece without comma. *)
Lemma cleanBase64_cases (s : string) :
  cleanBase64 s = s \/ JS.has_char "," (cleanBase64 s) = false.
Proof.
  unfold cleanBase64.
  destruct (JS.split "," s) as [|h [|b t]] eqn:E; simpl; try (left; reflexivity).
  destruct b as [|c b]; [left; reflexivity|].
  right. change (JS.has_char "," (String c b) = false).
  apply (split_pieces_without_sep "," s). rewrite E. right. left. reflexivity.
Qed.

(** Stripping twice is stripping once, on every string. *)
Lemma cleanBase64_idempotent (s : string) :
  cleanBase64 (cleanBase64 s) = cleanBase64 s.
Proof.
  destruct (cleanBase64_cases s) as [H|H].
  - rewrite H. exact H.
  - apply cleanBase64_without_comma. exact H.
Qed.

Lemma base64_char_not_comma (c : ascii) :
  Spec.base64_char c = true -> Ascii.eqb c "," = false.
Proof.
  intros H. destruct (Ascii.eqb c ",") eqn:E; [|reflexivity].
  apply Ascii.eqb_eq in E. subst c. discriminate H.
Qed.

(** A base64 payload holds no comma. *)
Lemma base64_without_comma (s : string) :
  Spec.base64 s = true -> JS.has_char "," s = false.
Proof.
  induction s as [|c s IH]; simpl; intros H; [reflexivity|].
  apply andb_true_iff in H. destruct H as [Hc Hs].
  rewrite (base64_char_not_comma c Hc), (IH Hs). reflexivity.
Qed.

Lemma append_assoc (a b c : string) : (a ++ b) ++ c = a ++ (b ++ c).
Proof. induction a as [|x a IH]; simpl; [reflexivity | rewrite IH; reflexivity]. Qed.

Lemma has_char_app (c : ascii) (a b : string) :
  JS.has_char c (a ++ b) = JS.has_char c a || JS.has_char c b.
Proof.
  induction a as [|x a IH]; simpl; [reflexivity|].
  rewrite IH, orb_assoc. reflexivity.
Qed.

(** The header without its final comma holds no comma. *)
Lemma header_without_comma (mediatype : string) :
  JS.has_char "," mediatype = false ->
  JS.has_char "," ("data:" ++ mediatype ++ ";base64") = false.
Proof.
  intros H. rewrite !has_char_app, H. reflexivity.
Qed.

Lemma header_shape (mediatype payload : string) :
  Spec.data_url_header mediatype ++ payload =
  ("data:" ++ mediatype ++ ";base64") ++ String "," payload.
Proof.
  unfold Spec.data_url_header.
  change ";base64," with (";base64" ++ ",").
  rewrite !append_assoc. reflexivity.
Qed.

(** With a header in front of a payload that is not empty, the payload alone
    is transmitted: the same bytes as for the bare payload. *)
Lemma cleanBase64_strips_header (mediatype payload : string) :
  JS.has_char "," mediatype = false ->
  Spec.base64 payload = true ->
  payload <> "" ->
  cleanBase64 (Spec.data_url_header mediatype ++ payload) = cleanBase64 payload.
Proof.
  intros Hm Hp Hne.
  pose proof (base64_without_comma payload Hp) as Hc.
  rewrite (cleanBase64_without_comma _ Hc), header_shape.
  apply cleanBase64_second_piece; [| |exact Hne].
  - apply header_without_comma. exact Hm.
  - left. apply split_without_sep. exact Hc.
Qed.

(** With a header in front of an empty payload nothing is stripped. *)
Lemma cleanBase64_keeps_bare_header (mediatype : string) :
  JS.has_char "," mediatype = false ->
  cleanBase64 (Spec.data_url_header mediatype) = Spec.data_url_header mediatype.
Proof.
  intros Hm.
  assert (E : Spec.data_url_header mediatype
              = Spec.data_url_header mediatype ++ "").
  { generalize (Spec.data_url_header mediatype) as h.
    induction h as [|x h IH]; simpl; [reflexivity | rewrite <- IH; reflexivity]. }
  rewrite E at 1 2. rewrite header_shape.
  apply cleanBase64_empty_piece.
  - apply header_without_comma. exact Hm.
  - exists []. reflexivity.
Qed.

(* ================================================================== *)
(** * Properties of the request: payload, MIME type, instruction *)
(* ================================================================== *)

(** C2.  Stripping the data-URL header is meant to give the same transmitted
    bytes with or without the header.  At the empty payload it does not: the
    bare payload is transmitted as the empty string, the payload behind a
    header is transmitted with its header, by [analyzeFace] and by
    [generateLookPreview] alike. *)
Theorem header_kept_on_empty_payload :
  let header := Spec.data_url_header "image/jpeg" in
  let payload := "" in
  Spec.base64 payload = true /\
  cleanBase64 payload = "" /\
  cleanBase64 (header ++ payload) = "data:image/jpeg;base64," /\
  (forall mode,
     Spec.transmitted (analyzeFace_request (header ++ payload) mode)
     <> Spec.transmitted (analyzeFace_request payload mode)) /\
  (forall d,
     Spec.transmitted (generateLookPreview_request (header ++ payload) d)
     <> Spec.transmitted (generateLookPreview_request payload d)).
Proof.
  cbv zeta. repeat split; try reflexivity; intros x; discriminate.
Qed.

(** C9.  Whatever the image and the mode (or the description), the one inline
    part of the request of [analyzeFace] and of [generateLookPreview] declares
    the MIME type image/jpeg. *)
Theorem mime_type_is_jpeg (image : string) (mode : AnalysisMode)
  (combinationDescription : string) :
  Spec.declared_mime (analyzeFace_request image mode) = [Some "image/jpeg"] /\
  Spec.declared_mime (generateLookPreview_request image combinationDescription)
  = [Some "image/jpeg"].
Proof. split; reflexivity. Qed.

(** A string in which [sep] occurs reads [a], [sep], rest, with no [sep] in
    [a] and one occurrence less in the rest. *)
Lemma first_sep_shape (sep : ascii) (s : string) :
  1 <= JS.count_char sep s ->
  exists a rest,
    s = a ++ String sep rest /\ JS.has_char sep a = false /\
    JS.count_char sep s = S (JS.count_char sep rest).
Proof.
  induction s as [|c s IH]; simpl; intros Hc; [lia|].
  destruct (Ascii.eqb c sep) eqn:E.
  - apply Ascii.eqb_eq in E. subst c.
    exists "", s. repeat split.
  - destruct (IH Hc) as [a [rest [Hs [Ha Hn]]]].
    exists (String c a), rest. simpl. rewrite E, Ha. subst s.
    repeat split. exact Hn.
Qed.

(** An input with two commas or more reads [a,b,c] with no comma in [a] and
    in [b]. *)
Lemma two_commas_shape (s : string) :
  2 <= JS.count_char "," s ->
  exists a b c,
    s = a ++ String "," (b ++ String "," c) /\
    JS.has_char "," a = false /\ JS.has_char "," b = false.
Proof.
  intros H2.
  destruct (first_sep_shape "," s) as [a [rest [Hs [Ha Hn]]]]; [lia|].
  destruct (first_sep_shape "," rest) as [b [c [Hr [Hb _]]]]; [lia|].
  exists a, b, c. subst rest. repeat split; assumption.
Qed.

(** The payload both requests transmit is [cleanBase64] of the input. *)
Lemma transmitted_is_cleanBase64 (image : string) (mode : AnalysisMode)
  (combinationDescription : string) :
  Spec.transmitted (analyzeFace_request image mode) = [Some (cleanBase64 image)] /\
  Spec.transmitted (generateLookPreview_request image combinationDescription)
  = [Some (cleanBase64 image)].
Proof. split; reflexivity. Qed.

(** C10, as stated, fails: the input [a,,b] has two commas and nothing between
    them, and it is transmitted whole, not as the empty substring between the
    first comma and the second. *)
Lemma two_commas_empty_piece_counterexample :
  cleanBase64 ("a" ++ String "," ("" ++ String "," "b")) = "a,,b" /\
  ~ (forall a b c : string,
        JS.has_char "," a = false -> JS.has_char "," b = false ->
        cleanBase64 (a ++ String "," (b ++ String "," c)) = b).
Proof.
  split; [reflexivity|].
  intros H. specialize (H "a" "" "b" eq_refl eq_refl). discriminate H.
Qed.

(** C10, amended.  An input with two commas or more reads [a,b,c] with no
    comma in [a] and [b]; when [b] is not empty, [b] alone is transmitted by
    both functions and [c] is dropped.  An input made of a data-URL header
    and an empty payload is transmitted whole, header included. *)
Theorem payload_between_first_two_commas (a b c mediatype : string)
  (mode : AnalysisMode) (combinationDescription : string) :
  JS.has_char "," a = false ->
  JS.has_char "," b = false ->
  JS.has_char "," mediatype = false ->
  let input := a ++ String "," (b ++ String "," c) in
  let bare := Spec.data_url_header mediatype in
  (b <> "" ->
   Spec.transmitted (analyzeFace_request input mode) = [Some b] /\
   Spec.transmitted (generateLookPreview_request input combinationDescription)
   = [Some b]) /\
  Spec.transmitted (analyzeFace_request bare mode) = [Some bare] /\
  Spec.transmitted (generateLookPreview_request bare combinationDescription)
  = [Some bare].
Proof.
  intros Ha Hb Hm input bare.
  assert (Hbare : cleanBase64 bare = bare)
    by (apply cleanBase64_keeps_bare_header; exact Hm).
  split; [intros Hne | split].
  - assert (E : cleanBase64 input = b).
    { apply cleanBase64_second_piece; [exact Ha | | exact Hne].
      right. exists (JS.split "," c).
      apply split_at_first_sep. exact Hb. }
    destruct (transmitted_is_cleanBase64 input mode combinationDescription)
      as [H1 H2].
    rewrite H1, H2, E. split; reflexivity.
  - destruct (transmitted_is_cleanBase64 bare mode combinationDescription)
      as [H1 _].
    rewrite H1, Hbare. reflexivity.
  - destruct (transmitted_is_cleanBase64 bare mode combinationDescription)
      as [_ H2].
    rewrite H2, Hbare. reflexivity.
Qed.

Lemma payload_between_first_two_commas_witness :
  (Spec.transmitted
     (analyzeFace_request ("data:image/png;base64" ++ String "," ("iVBORw0KGgo=" ++ String "," "tail"))
        COMPLETE) = [Some "iVBORw0KGgo="] /\
   Spec.transmitted
     (generateLookPreview_request
        ("data:image/png;base64" ++ String "," ("iVBORw0KGgo=" ++ String "," "tail"))
        "Hairstyle: Quiff. . Create a cohesive look.") = [Some "iVBORw0KGgo="]) /\
  Spec.transmitted (analyzeFace_request (Spec.data_url_header "image/png") COMPLETE)
  = [Some "data:image/png;base64,"].
Proof.
  pose proof (@payload_between_first_two_commas
                "data:image/png;base64" "iVBORw0KGgo=" "tail" "image/png"
                COMPLETE "Hairstyle: Quiff. . Create a cohesive look."
                eq_refl eq_refl eq_refl) as H.
  cbv zeta in H. destruct H as [H1 [H2 _]].
  split; [apply H1; discriminate | exact H2].
Defined.

(** C5.  The system instruction [analyzeFace] sends is the base instruction
    followed by the directive of the mode.  For HAIRSTYLE_ONLY it asks for an
    empty [facialHair] array, 4-5 hairstyles and combinations whose
    [facialHair] is the empty string; for FACIAL_HAIR_ONLY the same with the
    two axes swapped; for COMPLETE it asks for 3-4 hairstyles, 3-4 facial hair
    styles and 3 combinations pairing them.  No mode carries the directive of
    another. *)
Theorem system_instruction_mode_correct (image : string) (mode : AnalysisMode) :
  exists instruction,
    option_map systemInstruction (config (analyzeFace_request image mode))
    = Some instruction /\
    instruction = BASE_SYSTEM_INSTRUCTION ++ JS.LF ++ JS.LF ++ "CURRENT MODE: "
                  ++ modeInstruction mode /\
    let asks fragment := JS.includes fragment instruction in
    match mode with
    | HAIRSTYLE_ONLY =>
        asks "Return an empty array for 'facialHair'." = true /\
        asks "Populate 'hairstyles' with 4-5 options." = true /\
        asks "3 distinct hairstyle-only transformations (leave facialHair as empty string in combinations)" = true /\
        asks "Return an empty array for 'hairstyles'." = false /\
        asks "3-4 specific" = false
    | FACIAL_HAIR_ONLY =>
        asks "Return an empty array for 'hairstyles'." = true /\
        asks "Populate 'facialHair' with 4-5 options." = true /\
        asks "3 distinct facial-hair-only transformations (leave hairstyle as empty string in combinations)" = true /\
        asks "Return an empty array for 'facialHair'." = false /\
        asks "3-4 specific" = false
    | COMPLETE =>
        asks "3-4 specific hairstyles" = true /\
        asks "3-4 specific facial hair styles" = true /\
        asks "3 distinct 'Look Combinations' pairing them together" = true /\
        asks "Return an empty array" = false /\
        asks "4-5 options" = false
    end.
Proof.
  exists (fullSystemInstruction mode).
  split; [reflexivity | split; [reflexivity|]].
  destruct mode; cbv zeta; repeat split; vm_compute; reflexivity.
Qed.

(* ================================================================== *)
(** * Properties of [analyzeFace] *)
(* ================================================================== *)

Section AnalyzeFace.

Variable JSON_parse : string -> option JSON.
Variable generateContent : GenerateContentParameters -> ProviderError + Response.t.

(** The three ways [parse_analysis] ends. *)
Lemma parse_analysis_cases (response : Response.t) :
  (JS.truthy (Response.text response) = false /\
   parse_analysis JSON_parse response = inl Spec.no_response) \/
  (exists t, Response.text response = Some t /\ t <> "" /\
     parse_analysis JSON_parse response
     = match JSON_parse t with Some v => inr v | None => inl SyntaxError end).
Proof.
  unfold parse_analysis.
  destruct (Response.text response) as [[|c t]|] eqn:E; simpl.
  - left. split; reflexivity.
  - right. exists (String c t). repeat split. discriminate.
  - left. split; reflexivity.
Qed.

Lemma outcome_log_and_rethrow (A : Type) (label : string) (body : exn + A) :
  outcome (log_and_rethrow label body) = body.
Proof. destruct body; reflexivity. Qed.

End AnalyzeFace.

(** C1, as stated, fails: the provider answers a FACIAL_HAIR_ONLY request
    with a text that parses as JSON and lists a hairstyle; [analyzeFace]
    returns the parsed value as it is, with [hairstyles] not empty.  The same
    text answers a COMPLETE request with one entry per list and no
    combination. *)
Lemma analysis_not_validated_counterexample :
  let provider := Sample.resolves (Sample.text_response (Some Sample.analysis_text)) in
  JsonText.parse Sample.analysis_text = Some Sample.analysis_value /\
  outcome (analyzeFace JsonText.parse provider "AAAA" FACIAL_HAIR_ONLY)
  = inr Sample.analysis_value /\
  Json.array_length "hairstyles" Sample.analysis_value = Some 1 /\
  Spec.mode_invariant FACIAL_HAIR_ONLY Sample.analysis_value = false /\
  outcome (analyzeFace JsonText.parse provider "AAAA" COMPLETE)
  = inr Sample.analysis_value /\
  Spec.mode_invariant COMPLETE Sample.analysis_value = false.
Proof. cbv zeta. repeat split; vm_compute; reflexivity. Qed.

(** C1, amended.  When the text of the response parses as JSON, [analyzeFace]
    resolves with the parsed value itself, whatever the mode, and logs
    nothing: the result satisfies the per-mode invariant exactly when the
    provider's JSON does. *)
Theorem analysis_is_parsed_verbatim
  (JSON_parse : string -> option JSON)
  (generateContent : GenerateContentParameters -> ProviderError + Response.t)
  (image : string) (mode : AnalysisMode)
  (response : Response.t) (t : string) (v : JSON) :
  generateContent (analyzeFace_request image mode) = inr response ->
  Response.text response = Some t ->
  t <> "" ->
  JSON_parse t = Some v ->
  analyzeFace JSON_parse generateContent image mode
  = {| console := []; outcome := inr v |} /\
  (forall result,
     outcome (analyzeFace JSON_parse generateContent image mode) = inr result ->
     Spec.mode_invariant mode result = Spec.mode_invariant mode v).
Proof.
  intros Hcall Htext Hne Hparse.
  assert (E : analyzeFace JSON_parse generateContent image mode
              = {| console := []; outcome := inr v |}).
  { unfold analyzeFace. rewrite Hcall. unfold parse_analysis.
    rewrite Htext, (truthy_nonempty Hne), Hparse. reflexivity. }
  split; [exact E|].
  intros result Hres. rewrite E in Hres. simpl in Hres.
  injection Hres as <-. reflexivity.
Qed.

Lemma analysis_is_parsed_verbatim_witness :
  analyzeFace JsonText.parse
    (Sample.resolves (Sample.text_response (Some Sample.analysis_text)))
    "AAAA" HAIRSTYLE_ONLY
  = {| console := []; outcome := inr Sample.analysis_value |}.
Proof.
  refine (proj1 (@analysis_is_parsed_verbatim JsonText.parse
                   (Sample.resolves (Sample.text_response (Some Sample.analysis_text)))
                   "AAAA" HAIRSTYLE_ONLY
                   (Sample.text_response (Some Sample.analysis_text))
                   Sample.analysis_text Sample.analysis_value
                   eq_refl eq_refl _ _)).
  - vm_compute. discriminate.
  - vm_compute. reflexivity.
Defined.

(** C6.  [analyzeFace] rejects with the "no response" error exactly when the
    provider call resolved with no text (the text is missing or empty); when
    the call resolved with a text, the outcome is [JSON.parse] of that text
    (its value, or the error it throws); when the call rejected, the outcome
    is the rejection itself, which is also what is logged. *)
Theorem analyzeFace_outcomes
  (JSON_parse : string -> option JSON)
  (generateContent : GenerateContentParameters -> ProviderError + Response.t)
  (image : string) (mode : AnalysisMode) :
  let call := generateContent (analyzeFace_request image mode) in
  let run := analyzeFace JSON_parse generateContent image mode in
  (outcome run = inl Spec.no_response <->
   exists response, call = inr response /\
                    JS.truthy (Response.text response) = false) /\
  (forall response t,
     call = inr response -> Response.text response = Some t -> t <> "" ->
     outcome run
     = match JSON_parse t with Some v => inr v | None => inl SyntaxError end) /\
  (forall reason,
     call = inl reason ->
     outcome run = inl (Rejected reason) /\
     console run = [("Gemini Analysis Error:", Rejected reason)]).
Proof.
  cbv zeta. unfold analyzeFace.
  destruct (generateContent (analyzeFace_request image mode))
    as [reason|response] eqn:Hcall.
  - split; [split | split].
    + simpl. intros H. discriminate H.
    + intros [response [H _]]. discriminate H.
    + intros response t H. discriminate H.
    + intros r H. injection H as <-. split; reflexivity.
  - rewrite outcome_log_and_rethrow.
    destruct (parse_analysis_cases JSON_parse response)
      as [[Hfalsy E]|[t [Ht [Hne E]]]]; rewrite E.
    + split; [split | split].
      * intros _. exists response. split; [reflexivity | exact Hfalsy].
      * intros _. reflexivity.
      * intros response' t' H Ht' Hne'. injection H as <-.
        rewrite Ht' in Hfalsy. rewrite (truthy_nonempty Hne') in Hfalsy.
        discriminate Hfalsy.
      * intros r H. discriminate H.
    + split; [split | split].
      * intros H. exfalso. destruct (JSON_parse t); discriminate H.
      * intros [response' [H Hfalsy]]. injection H as <-.
        rewrite Ht, (truthy_nonempty Hne) in Hfalsy. discriminate Hfalsy.
      * intros response' t' H Ht' _. injection H as <-.
        rewrite Ht in Ht'. injection Ht' as <-. reflexivity.
      * intros r H. discriminate H.
Qed.

Lemma analyzeFace_outcomes_witness :
  outcome (analyzeFace JsonText.parse
             (Sample.resolves (Sample.text_response None)) "AAAA" COMPLETE)
  = inl Spec.no_response /\
  outcome (analyzeFace JsonText.parse
             (Sample.resolves (Sample.text_response (Some "{}"))) "AAAA" COMPLETE)
  = inr (JObject []) /\
  outcome (analyzeFace JsonText.parse (Sample.rejects "503") "AAAA" COMPLETE)
  = inl (Rejected "503").
Proof.
  split; [|split].
  - apply (proj1 (@analyzeFace_outcomes JsonText.parse
                    (Sample.resolves (Sample.text_response None)) "AAAA" COMPLETE)).
    exists (Sample.text_response None). split; reflexivity.
  - apply (proj1 (proj2 (@analyzeFace_outcomes JsonText.parse
                    (Sample.resolves (Sample.text_response (Some "{}")))
                    "AAAA" COMPLETE))
             (Sample.text_response (Some "{}")) "{}");
      [reflexivity | reflexivity | discriminate].
  - apply (proj2 (proj2 (@analyzeFace_outcomes JsonText.parse
                    (Sample.rejects "503") "AAAA" COMPLETE)) "503").
    reflexivity.
Defined.

(* ================================================================== *)
(** * Properties of [generateLookPreview] *)
(* ================================================================== *)

(** The loop returns the data of the first part that carries an image. *)
Lemma first_inline_data_find (ps : list Part) :
  first_inline_data ps
  = match find Spec.carries_image ps with
    | Some p => Spec.image_data p
    | None => None
    end.
Proof.
  induction ps as [|p ps IH]; simpl; [reflexivity|].
  unfold Spec.carries_image at 1.
  destruct (inlineData p) as [blob|] eqn:E; [|exact IH].
  destruct (JS.truthy (data blob)); [|exact IH].
  unfold Spec.image_data. rewrite E. reflexivity.
Qed.

Lemma find_carries_image (ps : list Part) (p : Part) :
  find Spec.carries_image ps = Some p ->
  exists d, Spec.image_data p = Some d /\ d <> "".
Proof.
  intros H. apply find_some in H. destruct H as [_ H].
  unfold Spec.carries_image, Spec.image_data in *.
  destruct (inlineData p) as [blob|]; [|discriminate H].
  destruct (data blob) as [[|c d]|]; try discriminate H.
  exists (String c d). split; [reflexivity | discriminate].
Qed.

Lemma existsb_find (ps : list Part) :
  existsb Spec.carries_image ps = true ->
  exists p, find Spec.carries_image ps = Some p.
Proof.
  induction ps as [|q ps IH]; simpl; [discriminate|].
  destruct (Spec.carries_image q); [intros _; exists q; reflexivity | exact IH].
Qed.

Lemma find_none_existsb (ps : list Part) :
  existsb Spec.carries_image ps = false -> find Spec.carries_image ps = None.
Proof.
  induction ps as [|q ps IH]; simpl; [reflexivity|].
  destruct (Spec.carries_image q); [discriminate | exact IH].
Qed.

(** When the first candidate has content with parts, the outcome is decided by
    the scan of these parts. *)
Lemma extract_image_of_parts (response : Response.t) :
  Spec.content_parts response <> [] ->
  extract_image response
  = match first_inline_data (Spec.content_parts response) with
    | Some d => inr ("data:image/png;base64," ++ d)
    | None => inl Spec.no_image_generated
    end.
Proof.
  unfold Spec.content_parts, extract_image.
  destruct (Response.candidates response) as [[|candidate more]|]; simpl;
    try (intros H; exfalso; apply H; reflexivity).
  destruct (content candidate) as [c|];
    [|intros H; exfalso; apply H; reflexivity].
  destruct (parts c) as [ps|];
    [|intros H; exfalso; apply H; reflexivity].
  reflexivity.
Qed.

(** Without a part that carries an image, [extract_image] never returns a
    URI; it ends with the "No image generated." error unless the list of
    candidates is empty or the first candidate has no content. *)
Lemma extract_image_without_image (response : Response.t) :
  existsb Spec.carries_image (Spec.content_parts response) = false ->
  (exists e, extract_image response = inl e) /\
  ((Response.candidates response = None \/
    exists candidate more c,
      Response.candidates response = Some (candidate :: more) /\
      content candidate = Some c) ->
   extract_image response = inl Spec.no_image_generated).
Proof.
  unfold Spec.content_parts, extract_image.
  destruct (Response.candidates response) as [[|candidate more]|]; simpl.
  - intros _. split; [eexists; reflexivity|].
    intros [H|[x [y [z [H _]]]]]; discriminate H.
  - destruct (content candidate) as [c|] eqn:Hc.
    + destruct (parts c) as [ps|].
      * intros H. rewrite first_inline_data_find, (find_none_existsb _ H).
        split; [eexists; reflexivity | reflexivity].
      * intros _. split; [eexists; reflexivity | reflexivity].
    + intros _. split; [eexists; reflexivity|].
      intros [H|[x [y [z [H1 H2]]]]]; [discriminate H|].
      injection H1 as <- <-. rewrite Hc in H2. discriminate H2.
  - intros _. split; [eexists; reflexivity | reflexivity].
Qed.

Lemma substring_all (s : string) : String.substring 0 (String.length s) s = s.
Proof. induction s as [|c s IH]; simpl; [reflexivity | rewrite IH; reflexivity]. Qed.

(** The PNG prefix in front of a base64 payload is a valid PNG data URI. *)
Lemma png_data_uri_intro (d : string) :
  Spec.base64 d = true -> Spec.png_data_uri (Spec.png_prefix ++ d) = true.
Proof.
  intros H. unfold Spec.png_data_uri.
  apply andb_true_iff. split.
  - unfold Spec.png_prefix. simpl. destruct d; reflexivity.
  - change (Spec.base64 (String.substring 0 (String.length d - 0) d) = true).
    rewrite Nat.sub_0_r, substring_all. exact H.
Qed.

(** C3.  A response without any part carrying an image is meant to end in the
    "No image generated." error.  When the first candidate has no content
    (or the list of candidates is empty) the guard before the loop reads a
    property of [undefined]: the call ends in a TypeError instead, logged and
    rethrown like any other error. *)
Theorem preview_without_content_is_type_error
  (originalBase64 combinationDescription : string) :
  let blocked := Sample.candidates_response [Sample.empty_candidate] in
  let none := Sample.candidates_response [] in
  existsb Spec.carries_image (Spec.content_parts blocked) = false /\
  generateLookPreview (Sample.resolves blocked)
    originalBase64 combinationDescription
  = {| console := [("Image Generation Error:", TypeError "parts")];
       outcome := inl (TypeError "parts") |} /\
  existsb Spec.carries_image (Spec.content_parts none) = false /\
  generateLookPreview (Sample.resolves none)
    originalBase64 combinationDescription
  = {| console := [("Image Generation Error:", TypeError "content")];
       outcome := inl (TypeError "content") |} /\
  TypeError "parts" <> Spec.no_image_generated /\
  TypeError "content" <> Spec.no_image_generated.
Proof. cbv zeta. repeat split; discriminate. Qed.

(** Whatever the response, without a part carrying an image the preview call
    rejects: it never resolves with a URI. *)
Lemma preview_without_image_rejects
  (generateContent : GenerateContentParameters -> ProviderError + Response.t)
  (originalBase64 combinationDescription : string) (response : Response.t) :
  generateContent
    (generateLookPreview_request originalBase64 combinationDescription)
  = inr response ->
  existsb Spec.carries_image (Spec.content_parts response) = false ->
  exists e,
    outcome (generateLookPreview generateContent
               originalBase64 combinationDescription) = inl e.
Proof.
  intros Hcall Hnone. unfold generateLookPreview.
  rewrite Hcall, outcome_log_and_rethrow.
  exact (proj1 (extract_image_without_image response Hnone)).
Qed.

(** C4.  When a content part of the response carries inline image bytes,
    [generateLookPreview] resolves, logging nothing, with the PNG prefix
    followed by the data of the first such part in part order; the result
    starts with [data:image/png;base64,] and is a valid PNG data URI as soon
    as the data is base64. *)
Theorem preview_returns_first_image
  (generateContent : GenerateContentParameters -> ProviderError + Response.t)
  (originalBase64 combinationDescription : string) (response : Response.t) :
  generateContent
    (generateLookPreview_request originalBase64 combinationDescription)
  = inr response ->
  existsb Spec.carries_image (Spec.content_parts response) = true ->
  exists p d,
    find Spec.carries_image (Spec.content_parts response) = Some p /\
    Spec.image_data p = Some d /\
    generateLookPreview generateContent originalBase64 combinationDescription
    = {| console := []; outcome := inr ("data:image/png;base64," ++ d) |} /\
    String.prefix "data:image/png;base64," ("data:image/png;base64," ++ d) = true /\
    (Spec.base64 d = true ->
     Spec.png_data_uri ("data:image/png;base64," ++ d) = true).
Proof.
  intros Hcall Hsome.
  destruct (existsb_find _ Hsome) as [p Hp].
  destruct (find_carries_image _ Hp) as [d [Hd Hne]].
  exists p, d. split; [exact Hp | split; [exact Hd|]].
  assert (Hparts : Spec.content_parts response <> []).
  { intros E. rewrite E in Hp. discriminate Hp. }
  split; [|split].
  - unfold generateLookPreview. rewrite Hcall.
    rewrite (extract_image_of_parts response Hparts).
    rewrite first_inline_data_find, Hp, Hd. reflexivity.
  - simpl. destruct d; reflexivity.
  - exact (png_data_uri_intro d).
Qed.

Lemma preview_returns_first_image_witness :
  generateLookPreview
    (Sample.resolves
       (Sample.candidates_response
          [Sample.candidate_of
             [textPart "Here is the edited photo.";
              Sample.image_part "iVBORw0KGgo=";
              Sample.image_part "AAAA"]]))
    "AAAA" "Hairstyle: Quiff. . Create a cohesive look."
  = {| console := []; outcome := inr "data:image/png;base64,iVBORw0KGgo=" |} /\
  Spec.png_data_uri "data:image/png;base64,iVBORw0KGgo=" = true.
Proof.
  destruct (@preview_returns_first_image
              (Sample.resolves
                 (Sample.candidates_response
                    [Sample.candidate_of
                       [textPart "Here is the edited photo.";
                        Sample.image_part "iVBORw0KGgo=";
                        Sample.image_part "AAAA"]]))
              "AAAA" "Hairstyle: Quiff. . Create a cohesive look."
              _ eq_refl eq_refl)
    as [p [d [Hp [Hd [Hrun [_ Hvalid]]]]]].
  vm_compute in Hp. injection Hp as <-.
  vm_compute in Hd. injection Hd as <-.
  split; [exact Hrun | apply Hvalid; reflexivity].
Defined.

(* ================================================================== *)
(** * Substrings of a description *)
(* ================================================================== *)

Lemma prefix_cons (a b : ascii) (n x : string) :
  String.prefix (String a n) (String b x)
  = if ascii_dec a b then String.prefix n x else false.
Proof. reflexivity. Qed.

Lemma prefix_empty (x : string) : String.prefix "" x = true.
Proof. destruct x; reflexivity. Qed.

Lemma prefix_of_app (n r : string) : String.prefix n (n ++ r) = true.
Proof.
  induction n as [|a n IH]; simpl.
  - apply prefix_empty.
  - destruct (ascii_dec a a) as [_|Hne]; [exact IH | exfalso; apply Hne; reflexivity].
Qed.

Lemma includes_unfold (n hay : string) :
  JS.includes n hay
  = String.prefix n hay ||
    match hay with
    | EmptyString => false
    | String _ t => JS.includes n t
    end.
Proof. destruct hay; reflexivity. Qed.

(** A string occurs at the start of whatever it begins. *)
Lemma includes_at_start (n r : string) : JS.includes n (n ++ r) = true.
Proof. rewrite includes_unfold, prefix_of_app. reflexivity. Qed.

(** A first character that differs from the one of the needle is skipped. *)
Lemma includes_skip (a c : ascii) (n r : string) :
  Ascii.eqb a c = false ->
  JS.includes (String a n) (String c r) = JS.includes (String a n) r.
Proof.
  intros H. rewrite includes_unfold, prefix_cons.
  destruct (ascii_dec a c) as [E|_]; [|reflexivity].
  subst c. rewrite Ascii.eqb_refl in H. discriminate H.
Qed.

Lemma prefix_across_junction (t : string) :
  forall n x : string,
    JS.overlap n t = false ->
    String.prefix n x = false ->
    String.prefix n (x ++ t) = false.
Proof.
  induction n as [|a n IH]; intros x Hov Hpre.
  - rewrite prefix_empty in Hpre. discriminate Hpre.
  - simpl in Hov. apply orb_false_iff in Hov. destruct Hov as [Hhere Hlater].
    destruct x as [|b x].
    + exact Hhere.
    + change (String b x ++ t) with (String b (x ++ t)).
      rewrite prefix_cons in Hpre |- *.
      destruct (ascii_dec a b); [apply IH; assumption | reflexivity].
Qed.

(** A needle that occurs neither in [x] nor in [t], and cannot straddle their
    junction, does not occur in [x ++ t]. *)
Lemma includes_app_false (n t : string) :
  JS.overlap n t = false ->
  JS.includes n t = false ->
  forall x, JS.includes n x = false -> JS.includes n (x ++ t) = false.
Proof.
  intros Hov Ht. induction x as [|b x IH]; intros Hx.
  - exact Ht.
  - change (String b x ++ t) with (String b (x ++ t)).
    rewrite includes_unfold in Hx |- *.
    apply orb_false_iff in Hx. destruct Hx as [Hpre Hrest].
    apply orb_false_iff. split.
    + exact (prefix_across_junction t _ (String b x) Hov Hpre).
    + exact (IH Hrest).
Qed.

(* ================================================================== *)
(** * Properties of the Style Playground *)
(* ================================================================== *)

Section Playground.

Import StylePlayground.

Variable generateContent : GenerateContentParameters -> ProviderError + Response.t.
Variable originalImageBase64 : string.

Lemma hairPart_selected (st : State) (H : string) :
  selectedHair st = Some H -> H <> "" -> hairPart st = "Hairstyle: " ++ H.
Proof.
  intros E Hne. unfold hairPart. rewrite E, (truthy_nonempty Hne). reflexivity.
Qed.

Lemma beardPart_unselected (st : State) :
  selectedBeard st = None -> beardPart st = "".
Proof. intros E. unfold beardPart. rewrite E. reflexivity. Qed.

Lemma hairPart_unselected (st : State) :
  selectedHair st = None -> hairPart st = "".
Proof. intros E. unfold hairPart. rewrite E. reflexivity. Qed.

(** The description when only a hairstyle is selected. *)
Lemma description_hair_only (st : State) (H : string) :
  selectedHair st = Some H -> H <> "" -> selectedBeard st = None ->
  description st = "Hairstyle: " ++ H ++ ". . Create a cohesive look.".
Proof.
  intros E Hne Eb. unfold description.
  rewrite (hairPart_selected st E Hne), (beardPart_unselected st Eb).
  rewrite append_assoc. reflexivity.
Qed.

(** Once a part is not empty, one request goes to the Preview Generator,
    with the original image and the description. *)
Lemma handleVisualize_requests (st : State) :
  hairPart st <> "" \/ beardPart st <> "" ->
  preview_requests (handleVisualize generateContent originalImageBase64 st)
  = [(originalImageBase64, description st)].
Proof.
  intros Hsel. unfold handleVisualize.
  assert (Hgate : negb (JS.truthy (Some (hairPart st)))
                  && negb (JS.truthy (Some (beardPart st))) = false).
  { destruct Hsel as [Hh|Hb].
    - rewrite (truthy_nonempty Hh). reflexivity.
    - rewrite (truthy_nonempty Hb). apply andb_false_r. }
  rewrite Hgate. simpl.
  destruct (outcome (generateLookPreview generateContent originalImageBase64
                       (description st))); reflexivity.
Qed.

End Playground.

(** C7, as stated, fails for two selections.  A hairstyle name that itself
    holds "Facial Hair:" (names come from the provider's JSON) puts that
    fragment into the description; and the empty name counts as no selection,
    so that nothing is sent at all. *)
Lemma hair_only_description_counterexample :
  let provider := Sample.rejects "offline" in
  StylePlayground.preview_requests
    (StylePlayground.handleVisualize provider "AAAA"
       (Sample.selecting (Some "Facial Hair: Goatee") None))
  = [("AAAA", "Hairstyle: Facial Hair: Goatee. . Create a cohesive look.")] /\
  JS.includes "Facial Hair:"
    "Hairstyle: Facial Hair: Goatee. . Create a cohesive look." = true /\
  StylePlayground.preview_requests
    (StylePlayground.handleVisualize provider "AAAA"
       (Sample.selecting (Some "") None)) = [].
Proof. cbv zeta. repeat split; vm_compute; reflexivity. Qed.

(** C7, amended.  When a hairstyle name [H] is selected that is not empty and
    does not itself hold "Facial Hair:", and no facial-hair style is
    selected, [handleVisualize] sends the Preview Generator exactly one
    request, whose description holds "Hairstyle: H" and holds no
    "Facial Hair:". *)
Theorem hair_only_description
  (generateContent : GenerateContentParameters -> ProviderError + Response.t)
  (originalImageBase64 : string) (st : StylePlayground.State) (H : string) :
  StylePlayground.selectedHair st = Some H ->
  H <> "" ->
  JS.includes "Facial Hair:" H = false ->
  StylePlayground.selectedBeard st = None ->
  exists description,
    StylePlayground.preview_requests
      (StylePlayground.handleVisualize generateContent originalImageBase64 st)
    = [(originalImageBase64, description)] /\
    JS.includes ("Hairstyle: " ++ H) description = true /\
    JS.includes "Facial Hair:" description = false.
Proof.
  intros Ehair Hne Hclean Ebeard.
  exists (StylePlayground.description st).
  split; [|split].
  - apply handleVisualize_requests. left.
    rewrite (hairPart_selected st Ehair Hne). discriminate.
  - rewrite (description_hair_only st Ehair Hne Ebeard).
    rewrite <- append_assoc. apply includes_at_start.
  - rewrite (description_hair_only st Ehair Hne Ebeard).
    change ("Hairstyle: " ++ H ++ ". . Create a cohesive look.")
      with (String "H" (String "a" (String "i" (String "r" (String "s"
             (String "t" (String "y" (String "l" (String "e" (String ":"
             (String " " (H ++ ". . Create a cohesive look.")))))))))))).
    repeat (rewrite includes_skip by reflexivity).
    apply includes_app_false; [reflexivity | reflexivity | exact Hclean].
Qed.

Lemma hair_only_description_witness :
  exists description,
    StylePlayground.preview_requests
      (StylePlayground.handleVisualize (Sample.rejects "offline") "AAAA"
         (Sample.selecting (Some "Pompadour") None))
    = [("AAAA", description)] /\
    JS.includes ("Hairstyle: " ++ "Pompadour") description = true /\
    JS.includes "Facial Hair:" description = false.
Proof.
  apply (@hair_only_description (Sample.rejects "offline") "AAAA"
           (Sample.selecting (Some "Pompadour") None) "Pompadour").
  - reflexivity.
  - discriminate.
  - reflexivity.
  - reflexivity.
Defined.

(** C8.  When neither a hairstyle nor a facial-hair style is selected (both
    are null), the action button is disabled and [handleVisualize] does
    nothing: its trace is empty, so no request goes to the Preview Generator
    and the state after the run is the state before. *)
Theorem visualize_without_selection_is_noop
  (generateContent : GenerateContentParameters -> ProviderError + Response.t)
  (originalImageBase64 : string) (st : StylePlayground.State) :
  StylePlayground.selectedHair st = None ->
  StylePlayground.selectedBeard st = None ->
  let trace :=
    StylePlayground.handleVisualize generateContent originalImageBase64 st in
  trace = [] /\
  StylePlayground.preview_requests trace = [] /\
  StylePlayground.run st trace = st /\
  StylePlayground.visualize_disabled st = true.
Proof.
  intros Ehair Ebeard trace.
  assert (E : trace = []).
  { unfold trace, StylePlayground.handleVisualize.
    rewrite (hairPart_unselected st Ehair), (beardPart_unselected st Ebeard).
    reflexivity. }
  rewrite E. repeat split.
  unfold StylePlayground.visualize_disabled. rewrite Ehair, Ebeard.
  apply orb_true_r.
Qed.

Lemma visualize_without_selection_is_noop_witness :
  StylePlayground.handleVisualize
    (Sample.resolves
       (Sample.candidates_response
          [Sample.candidate_of [Sample.image_part "iVBORw0KGgo="]]))
    "AAAA" (Sample.selecting None None) = [] /\
  StylePlayground.visualize_disabled (Sample.selecting None None) = true.
Proof.
  destruct (@visualize_without_selection_is_noop
              (Sample.resolves
                 (Sample.candidates_response
                    [Sample.candidate_of [Sample.image_part "iVBORw0KGgo="]]))
              "AAAA" (Sample.selecting None None) eq_refl eq_refl)
    as [Htrace [_ [_ Hdisabled]]].
  split; [exact Htrace | exact Hdisabled].
Defined.

(** A request to the Preview Generator is issued only from a state with a
    selection, and then the action button is enabled unless a generation is
    already running. *)
Lemma visualize_request_needs_selection
  (generateContent : GenerateContentParameters -> ProviderError + Response.t)
  (originalImageBase64 : string) (st : StylePlayground.State) :
  StylePlayground.preview_requests
    (StylePlayground.handleVisualize generateContent originalImageBase64 st)
  <> [] ->
  JS.truthy (StylePlayground.selectedHair st)
  || JS.truthy (StylePlayground.selectedBeard st) = true /\
  StylePlayground.visualize_disabled st = StylePlayground.isGenerating st.
Proof.
  unfold StylePlayground.handleVisualize, StylePlayground.visualize_disabled,
    StylePlayground.hairPart, StylePlayground.beardPart.
  destruct (StylePlayground.selectedHair st) as [[|c h]|];
    destruct (StylePlayground.selectedBeard st) as [[|d b]|]; simpl;
    intros H; try (exfalso; apply H; reflexivity);
    (split; [reflexivity | apply orb_false_r]).
Qed.

(* ================================================================== *)
(** * Further properties of the service *)
(* ================================================================== *)

Lemma console_log_and_rethrow (A : Type) (label : string) (body : exn + A) :
  console (log_and_rethrow label body)
  = match body with inl e => [(label, e)] | inr _ => [] end.
Proof. destruct body; reflexivity. Qed.

(** X1.  Both functions of the service log exactly what they throw: when the
    promise rejects, the console holds one line, the label of the function
    with the very error of the rejection; when it resolves, nothing was
    logged. *)
Theorem service_logs_what_it_throws
  (JSON_parse : string -> option JSON)
  (generateContent : GenerateContentParameters -> ProviderError + Response.t)
  (image : string) (mode : AnalysisMode) (combinationDescription : string) :
  let analysis := analyzeFace JSON_parse generateContent image mode in
  let preview := generateLookPreview generateContent image combinationDescription in
  console analysis
  = match outcome analysis with
    | inl e => [("Gemini Analysis Error:", e)]
    | inr _ => []
    end /\
  console preview
  = match outcome preview with
    | inl e => [("Image Generation Error:", e)]
    | inr _ => []
    end.
Proof.
  cbv zeta. unfold analyzeFace, generateLookPreview.
  rewrite !console_log_and_rethrow, !outcome_log_and_rethrow.
  split; reflexivity.
Qed.

(** How [extract_image] ends, by the shape of the response. *)
Lemma extract_image_shapes (response : Response.t) :
  match Response.candidates response with
  | None => extract_image response = inl Spec.no_image_generated
  | Some [] => extract_image response = inl (TypeError "content")
  | Some (c :: _) =>
      match content c with
      | None => extract_image response = inl (TypeError "parts")
      | Some _ =>
          if existsb Spec.carries_image (Spec.content_parts response)
          then exists d, d <> "" /\
                 extract_image response = inr ("data:image/png;base64," ++ d)
          else extract_image response = inl Spec.no_image_generated
      end
  end.
Proof.
  unfold extract_image, Spec.content_parts.
  destruct (Response.candidates response) as [[|c more]|]; simpl; try reflexivity.
  destruct (content c) as [ct|]; [|reflexivity].
  destruct (parts ct) as [ps|]; [|reflexivity].
  rewrite first_inline_data_find.
  destruct (existsb Spec.carries_image ps) eqn:E.
  - destruct (existsb_find _ E) as [p Hp].
    destruct (find_carries_image _ Hp) as [d [Hd Hne]].
    exists d. rewrite Hp, Hd. split; [exact Hne | reflexivity].
  - rewrite (find_none_existsb _ E). reflexivity.
Qed.

(** X2.  Once the provider call resolved, [generateLookPreview] ends in one
    of four ways, each decided by the shape of the response: it resolves
    exactly when a part of the first candidate carries an image; it rejects
    with a TypeError exactly when the list of candidates is empty (reading
    [content]) or the first candidate has no content (reading [parts]); in
    every other case it rejects with "No image generated.". *)
Theorem preview_outcome_classified
  (generateContent : GenerateContentParameters -> ProviderError + Response.t)
  (originalBase64 combinationDescription : string) (response : Response.t) :
  generateContent
    (generateLookPreview_request originalBase64 combinationDescription)
  = inr response ->
  let out := outcome (generateLookPreview generateContent
                        originalBase64 combinationDescription) in
  ((exists uri, out = inr uri) <->
   existsb Spec.carries_image (Spec.content_parts response) = true) /\
  (out = inl (TypeError "content") <-> Response.candidates response = Some []) /\
  (out = inl (TypeError "parts") <->
   exists c more, Response.candidates response = Some (c :: more) /\
                  content c = None) /\
  (out = inl Spec.no_image_generated <->
   existsb Spec.carries_image (Spec.content_parts response) = false /\
   Response.candidates response <> Some [] /\
   forall c more, Response.candidates response = Some (c :: more) ->
                  content c <> None).
Proof.
  intros Hcall. cbv zeta. unfold generateLookPreview.
  rewrite Hcall, outcome_log_and_rethrow.
  pose proof (extract_image_shapes response) as Hshape.
  assert (Hparts : Response.candidates response = None \/
                   Response.candidates response = Some [] \/
                   (exists c more, Response.candidates response = Some (c :: more)
                                   /\ content c = None) ->
                   existsb Spec.carries_image (Spec.content_parts response) = false).
  { unfold Spec.content_parts.
    intros [E|[E|[c [more [E Ec]]]]]; rewrite E; try reflexivity.
    rewrite Ec. reflexivity. }
  destruct (Response.candidates response) as [[|c more]|] eqn:Ecands.
  - rewrite Hshape, Hparts by (right; left; reflexivity).
    split; [|split; [|split]]; split.
    + intros [uri H]. discriminate H.
    + intros H. discriminate H.
    + reflexivity.
    + reflexivity.
    + intros H. discriminate H.
    + intros [x [y [H _]]]. discriminate H.
    + intros H. discriminate H.
    + intros [_ [H _]]. exfalso. apply H. reflexivity.
  - destruct (content c) as [ct|] eqn:Ec.
    + destruct (existsb Spec.carries_image (Spec.content_parts response)) eqn:E.
      * destruct Hshape as [d [Hne Hout]]. rewrite Hout.
        split; [|split; [|split]]; split.
        -- reflexivity.
        -- intros _. exists ("data:image/png;base64," ++ d). reflexivity.
        -- intros H. discriminate H.
        -- intros H. discriminate H.
        -- intros H. discriminate H.
        -- intros [x [y [H Hx]]]. injection H as <- <-.
           rewrite Ec in Hx. discriminate Hx.
        -- intros H. discriminate H.
        -- intros [H _]. discriminate H.
      * rewrite Hshape.
        split; [|split; [|split]]; split.
        -- intros [uri H]. discriminate H.
        -- intros H. discriminate H.
        -- intros H. discriminate H.
        -- intros H. discriminate H.
        -- intros H. discriminate H.
        -- intros [x [y [H Hx]]]. injection H as <- <-.
           rewrite Ec in Hx. discriminate Hx.
        -- intros _. split; [reflexivity | split; [discriminate|]].
           intros x y H. injection H as <- <-. rewrite Ec. discriminate.
        -- reflexivity.
    + rewrite Hshape, Hparts
        by (right; right; exists c, more; split; [reflexivity | exact Ec]).
      split; [|split; [|split]]; split.
      * intros [uri H]. discriminate H.
      * intros H. discriminate H.
      * intros H. discriminate H.
      * intros H. discriminate H.
      * intros _. exists c, more. split; [reflexivity | exact Ec].
      * reflexivity.
      * intros H. discriminate H.
      * intros [_ [_ H]]. exfalso. apply (H c more eq_refl). exact Ec.
  - rewrite Hshape, Hparts by (left; reflexivity).
    split; [|split; [|split]]; split.
    + intros [uri H]. discriminate H.
    + intros H. discriminate H.
    + intros H. discriminate H.
    + intros H. discriminate H.
    + intros H. discriminate H.
    + intros [x [y [H _]]]. discriminate H.
    + intros _. split; [reflexivity | split; [discriminate|]].
      intros x y H. discriminate H.
    + reflexivity.
Qed.

Lemma preview_outcome_classified_witness :
  (exists uri,
     outcome (generateLookPreview SampleUI.image_provider "AAAA"
                "Hairstyle: Quiff. . Create a cohesive look.") = inr uri) /\
  outcome (generateLookPreview
             (Sample.resolves (Sample.candidates_response
                                 [Sample.candidate_of [textPart "Sorry."]]))
             "AAAA" "Hairstyle: Quiff. . Create a cohesive look.")
  = inl Spec.no_image_generated.
Proof.
  split.
  - apply (proj1 (@preview_outcome_classified SampleUI.image_provider "AAAA"
                    "Hairstyle: Quiff. . Create a cohesive look." _ eq_refl)).
    reflexivity.
  - apply (proj2 (proj2 (proj2
             (@preview_outcome_classified
                (Sample.resolves (Sample.candidates_response
                                    [Sample.candidate_of [textPart "Sorry."]]))
                "AAAA" "Hairstyle: Quiff. . Create a cohesive look." _ eq_refl)))).
    split; [reflexivity | split; [discriminate|]].
    intros c more H. injection H as <- <-. discriminate.
Defined.

Lemma first_inline_data_relabel (mime : option string) (ps : list Part) :
  first_inline_data (map (Variation.relabel_part mime) ps) = first_inline_data ps.
Proof.
  induction ps as [|p ps IH]; simpl; [reflexivity|].
  destruct (inlineData p) as [blob|]; simpl; [|exact IH].
  destruct (JS.truthy (data blob)); [reflexivity | exact IH].
Qed.

Lemma extract_image_relabel (mime : option string) (response : Response.t) :
  extract_image (Variation.relabel mime response) = extract_image response.
Proof.
  unfold extract_image, Variation.relabel. simpl.
  destruct (Response.candidates response) as [[|c more]|]; simpl; try reflexivity.
  destruct (content c) as [ct|]; simpl; [|reflexivity].
  destruct (parts ct) as [ps|]; simpl; [|reflexivity].
  rewrite first_inline_data_relabel. reflexivity.
Qed.

(** X3.  The MIME type the provider declares for the image it returns plays
    no part: with every inline blob of the response relabelled (as JPEG, as
    WebP, or left without type) the preview call ends the same way, and a
    returned URI still says image/png. *)
Theorem preview_ignores_declared_mime
  (generateContent : GenerateContentParameters -> ProviderError + Response.t)
  (mime : option string) (originalBase64 combinationDescription : string) :
  generateLookPreview
    (fun request =>
       match generateContent request with
       | inl e => inl e
       | inr response => inr (Variation.relabel mime response)
       end)
    originalBase64 combinationDescription
  = generateLookPreview generateContent originalBase64 combinationDescription.
Proof.
  unfold generateLookPreview.
  destruct (generateContent
              (generateLookPreview_request originalBase64 combinationDescription));
    [reflexivity|].
  rewrite extract_image_relabel. reflexivity.
Qed.

(** X4.  Only the first candidate of the response is read: dropping the
    candidates after it never changes how the preview call ends, so an image
    that only a later candidate carries is never returned. *)
Theorem preview_reads_first_candidate_only
  (generateContent : GenerateContentParameters -> ProviderError + Response.t)
  (originalBase64 combinationDescription : string) :
  generateLookPreview
    (fun request =>
       match generateContent request with
       | inl e => inl e
       | inr response => inr (Variation.first_candidate_only response)
       end)
    originalBase64 combinationDescription
  = generateLookPreview generateContent originalBase64 combinationDescription /\
  forall (first : Candidate) (later : list Candidate),
    existsb Spec.carries_image
      (Spec.content_parts (Sample.candidates_response [first])) = false ->
    forall uri,
      outcome (generateLookPreview
                 (Sample.resolves (Sample.candidates_response (first :: later)))
                 originalBase64 combinationDescription) <> inr uri.
Proof.
  split.
  - unfold generateLookPreview.
    destruct (generateContent
                (generateLookPreview_request originalBase64 combinationDescription))
      as [e|response]; [reflexivity|].
    f_equal. unfold extract_image, Variation.first_candidate_only. simpl.
    destruct (Response.candidates response) as [[|c more]|]; reflexivity.
  - intros first later Hnone uri.
    unfold generateLookPreview, Sample.resolves.
    rewrite outcome_log_and_rethrow.
    destruct (extract_image_without_image
                (Sample.candidates_response (first :: later)) Hnone) as [[e He] _].
    rewrite He. discriminate.
Qed.

Lemma preview_reads_first_candidate_only_witness :
  outcome (generateLookPreview
             (Sample.resolves
                (Sample.candidates_response
                   [Sample.candidate_of [textPart "Sorry."];
                    Sample.candidate_of [Sample.image_part "AAAA"]]))
             "AAAA" "Hairstyle: Quiff. . Create a cohesive look.")
  <> inr "data:image/png;base64,AAAA".
Proof.
  apply (proj2 (@preview_reads_first_candidate_only
                  (Sample.rejects "unused") "AAAA"
                  "Hairstyle: Quiff. . Create a cohesive look.")
           (Sample.candidate_of [textPart "Sorry."])
           [Sample.candidate_of [Sample.image_part "AAAA"]]).
  reflexivity.
Defined.

(** X5.  The mode reaches the provider through the system instruction alone,
    and the three instructions differ: two analysis requests for the same
    image are equal exactly when their modes are, and they always agree on
    the model, the parts, the response MIME type and the schema. *)
Theorem analysis_requests_differ_by_mode (image : string) (m1 m2 : AnalysisMode) :
  (analyzeFace_request image m1 = analyzeFace_request image m2 <-> m1 = m2) /\
  (fullSystemInstruction m1 = fullSystemInstruction m2 <-> m1 = m2) /\
  model (analyzeFace_request image m1) = model (analyzeFace_request image m2) /\
  contents (analyzeFace_request image m1) = contents (analyzeFace_request image m2) /\
  option_map responseMimeType (config (analyzeFace_request image m1))
  = Some "application/json" /\
  option_map responseSchema (config (analyzeFace_request image m1))
  = option_map responseSchema (config (analyzeFace_request image m2)).
Proof.
  assert (Hins : fullSystemInstruction m1 = fullSystemInstruction m2 -> m1 = m2).
  { intros H. apply (f_equal (fun s => String.eqb s (fullSystemInstruction m2))) in H.
    rewrite String.eqb_refl in H.
    destruct m1, m2; try reflexivity; vm_compute in H; discriminate H. }
  split; [|split; [|repeat split]].
  - split; [|intros ->; reflexivity].
    intros H. apply Hins.
    exact (f_equal (fun r => match config r with
                             | Some c => systemInstruction c
                             | None => ""
                             end) H).
  - split; [exact Hins | intros ->; reflexivity].
Qed.

(** X6.  An image string without comma (a bare payload) is transmitted as it
    is by both functions; and whatever the input, transmitting the
    transmitted payload again changes nothing. *)
Theorem payload_without_comma_is_untouched (image : string)
  (mode : AnalysisMode) (combinationDescription : string) :
  (JS.has_char "," image = false ->
   Spec.transmitted (analyzeFace_request image mode) = [Some image] /\
   Spec.transmitted (generateLookPreview_request image combinationDescription)
   = [Some image]) /\
  Spec.transmitted (analyzeFace_request (cleanBase64 image) mode)
  = Spec.transmitted (analyzeFace_request image mode) /\
  Spec.transmitted
    (generateLookPreview_request (cleanBase64 image) combinationDescription)
  = Spec.transmitted (generateLookPreview_request image combinationDescription).
Proof.
  split; [intros H | split].
  - destruct (transmitted_is_cleanBase64 image mode combinationDescription)
      as [H1 H2].
    rewrite H1, H2, (cleanBase64_without_comma _ H). split; reflexivity.
  - destruct (transmitted_is_cleanBase64 image mode combinationDescription)
      as [H1 _].
    destruct (transmitted_is_cleanBase64 (cleanBase64 image) mode
                combinationDescription) as [H3 _].
    rewrite H1, H3, cleanBase64_idempotent. reflexivity.
  - destruct (transmitted_is_cleanBase64 image mode combinationDescription)
      as [_ H2].
    destruct (transmitted_is_cleanBase64 (cleanBase64 image) mode
                combinationDescription) as [_ H4].
    rewrite H2, H4, cleanBase64_idempotent. reflexivity.
Qed.

Lemma payload_without_comma_is_untouched_witness :
  Spec.transmitted (analyzeFace_request "iVBORw0KGgo=" COMPLETE)
  = [Some "iVBORw0KGgo="].
Proof.
  apply (proj1 (@payload_without_comma_is_untouched "iVBORw0KGgo=" COMPLETE
                  "Hairstyle: Quiff. . Create a cohesive look.")).
  reflexivity.
Defined.

(* ================================================================== *)
(** * Further properties of the Style Playground: selection and view *)
(* ================================================================== *)

Lemma strict_eq_refl (n : string) : Component.strict_eq n (Some n) = true.
Proof. simpl. apply String.eqb_refl. Qed.

Lemma strict_eq_other (n m : string) :
  n <> m -> Component.strict_eq m (Some n) = false.
Proof.
  intros H. simpl. apply String.eqb_neq. intros E. apply H. symmetry. exact E.
Qed.

(** X7.  A button of the selection area is a toggle: clicking the same name
    twice gives back the state before, exactly when nothing or that very name
    was selected; when another name was selected, the second click leaves no
    selection.  The same holds for facial hair. *)
Theorem double_click_restores (st : StylePlayground.State) (n : string) :
  (Component.clickHairstyle n (Component.clickHairstyle n st) = st <->
   StylePlayground.selectedHair st = None \/
   StylePlayground.selectedHair st = Some n) /\
  (Component.clickFacialHair n (Component.clickFacialHair n st) = st <->
   StylePlayground.selectedBeard st = None \/
   StylePlayground.selectedBeard st = Some n) /\
  (forall other, StylePlayground.selectedHair st = Some other -> other <> n ->
     StylePlayground.selectedHair
       (Component.clickHairstyle n (Component.clickHairstyle n st)) = None) /\
  (forall other, StylePlayground.selectedBeard st = Some other -> other <> n ->
     StylePlayground.selectedBeard
       (Component.clickFacialHair n (Component.clickFacialHair n st)) = None).
Proof.
  destruct st as [vm hair beard gen img err pos width].
  unfold Component.clickHairstyle, Component.clickFacialHair,
    Component.setSelectedHair, Component.setSelectedBeard. simpl.
  split; [|split; [|split]].
  - destruct hair as [k|]; simpl.
    + destruct (String.eqb n k) eqn:E; simpl.
      * apply String.eqb_eq in E. subst k.
        split; [intros _; right; reflexivity | reflexivity].
      * rewrite String.eqb_refl. split.
        -- intros H. discriminate H.
        -- intros [H|H]; [discriminate H|].
           injection H as ->. rewrite String.eqb_refl in E. discriminate E.
    + rewrite String.eqb_refl. split; [intros _; left; reflexivity | reflexivity].
  - destruct beard as [k|]; simpl.
    + destruct (String.eqb n k) eqn:E; simpl.
      * apply String.eqb_eq in E. subst k.
        split; [intros _; right; reflexivity | reflexivity].
      * rewrite String.eqb_refl. split.
        -- intros H. discriminate H.
        -- intros [H|H]; [discriminate H|].
           injection H as ->. rewrite String.eqb_refl in E. discriminate E.
    + rewrite String.eqb_refl. split; [intros _; left; reflexivity | reflexivity].
  - intros other H Hne. rewrite H. simpl.
    assert (E : String.eqb n other = false)
      by (apply String.eqb_neq; intros E; apply Hne; symmetry; exact E).
    rewrite E. simpl. rewrite String.eqb_refl. reflexivity.
  - intros other H Hne. rewrite H. simpl.
    assert (E : String.eqb n other = false)
      by (apply String.eqb_neq; intros E; apply Hne; symmetry; exact E).
    rewrite E. simpl. rewrite String.eqb_refl. reflexivity.
Qed.

Lemma double_click_restores_witness :
  Component.clickHairstyle "Fade"
    (Component.clickHairstyle "Fade" (Sample.selecting None (Some "Goatee")))
  = Sample.selecting None (Some "Goatee") /\
  StylePlayground.selectedHair
    (Component.clickHairstyle "Fade"
       (Component.clickHairstyle "Fade" (Sample.selecting (Some "Quiff") None)))
  = None.
Proof.
  split.
  - apply (proj1 (@double_click_restores
                    (Sample.selecting None (Some "Goatee")) "Fade")).
    left. reflexivity.
  - apply (proj1 (proj2 (proj2 (@double_click_restores
                    (Sample.selecting (Some "Quiff") None) "Fade"))) "Quiff").
    + reflexivity.
    + discriminate.
Defined.

(** X8.  Each area selects at most one name, and the two areas do not
    interfere: clicking a name after another one leaves the later name
    selected whatever was selected before; a click on a hairstyle leaves the
    facial-hair selection (and every other cell) alone and commutes with a
    click on a facial-hair style. *)
Theorem click_selects_one (st : StylePlayground.State) (n m b : string) :
  (n <> m ->
   StylePlayground.selectedHair
     (Component.clickHairstyle m (Component.clickHairstyle n st)) = Some m) /\
  (n <> m ->
   StylePlayground.selectedBeard
     (Component.clickFacialHair m (Component.clickFacialHair n st)) = Some m) /\
  Component.clickHairstyle n st
  = Component.setSelectedHair
      (StylePlayground.selectedHair (Component.clickHairstyle n st)) st /\
  StylePlayground.selectedBeard (Component.clickHairstyle n st)
  = StylePlayground.selectedBeard st /\
  StylePlayground.selectedHair (Component.clickFacialHair b st)
  = StylePlayground.selectedHair st /\
  Component.clickHairstyle n (Component.clickFacialHair b st)
  = Component.clickFacialHair b (Component.clickHairstyle n st).
Proof.
  destruct st as [vm hair beard gen img err pos width].
  unfold Component.clickHairstyle, Component.clickFacialHair,
    Component.setSelectedHair, Component.setSelectedBeard. simpl.
  split; [|split; [|repeat split]].
  - intros Hne.
    destruct (Component.strict_eq n hair);
      [reflexivity | rewrite (strict_eq_other Hne); reflexivity].
  - intros Hne.
    destruct (Component.strict_eq n beard);
      [reflexivity | rewrite (strict_eq_other Hne); reflexivity].
Qed.

Lemma click_selects_one_witness :
  StylePlayground.selectedHair
    (Component.clickHairstyle "Quiff"
       (Component.clickHairstyle "Fade" (Sample.selecting (Some "Fade") None)))
  = Some "Quiff".
Proof.
  apply (proj1 (@click_selects_one (Sample.selecting (Some "Fade") None)
                  "Fade" "Quiff" "Goatee")).
  discriminate.
Defined.

Lemma state_eta (st : StylePlayground.State) :
  st = {| StylePlayground.viewMode := StylePlayground.viewMode st;
          StylePlayground.selectedHair := StylePlayground.selectedHair st;
          StylePlayground.selectedBeard := StylePlayground.selectedBeard st;
          StylePlayground.isGenerating := StylePlayground.isGenerating st;
          StylePlayground.generatedImage := StylePlayground.generatedImage st;
          StylePlayground.error := StylePlayground.error st;
          StylePlayground.sliderPosition := StylePlayground.sliderPosition st;
          StylePlayground.containerWidth := StylePlayground.containerWidth st |}.
Proof. destruct st; reflexivity. Qed.

(** X9.  Switching the view changes which names are offered and nothing
    else: both selections stay as they are, also when the other view does not
    offer the selected name, and [handleVisualize] does after the switch
    exactly what it does before it; switching back gives the state before. *)
Theorem view_switch_keeps_selection
  (generateContent : GenerateContentParameters -> ProviderError + Response.t)
  (image : string) (props : Component.Props)
  (st : StylePlayground.State) (m : StylePlayground.ViewMode) :
  let st' := Component.setViewMode m st in
  StylePlayground.selectedHair st' = StylePlayground.selectedHair st /\
  StylePlayground.selectedBeard st' = StylePlayground.selectedBeard st /\
  StylePlayground.handleVisualize generateContent image st'
  = StylePlayground.handleVisualize generateContent image st /\
  Component.setViewMode (StylePlayground.viewMode st) st' = st /\
  Component.displayHairstyles props
    (Component.setViewMode StylePlayground.explore st)
  = Component.ALL_HAIRSTYLES /\
  Component.displayHairstyles props
    (Component.setViewMode StylePlayground.recommended st)
  = map Types.name (Component.hairstyles props) /\
  Component.displayFacialHair props
    (Component.setViewMode StylePlayground.explore st)
  = Component.ALL_FACIAL_HAIR /\
  Component.displayFacialHair props
    (Component.setViewMode StylePlayground.recommended st)
  = map Types.name (Component.facialHair props).
Proof.
  cbv zeta. repeat split.
  symmetry. apply state_eta.
Qed.

(** X10.  What the selection areas show.  In the explore view both areas
    offer the whole catalog (18 hairstyles, 12 facial-hair styles) whatever
    the analysis recommended.  The notice "No ... suggestions available"
    appears exactly in the recommended view with an empty list of
    recommendations; an area is never left blank. *)
Theorem selection_areas (props : Component.Props) (st : StylePlayground.State) :
  (StylePlayground.viewMode st = StylePlayground.explore ->
   exists hair beard,
     Component.hairArea props st = Component.Buttons hair /\
     map fst hair = Component.ALL_HAIRSTYLES /\ List.length hair = 18 /\
     Component.beardArea props st = Component.Buttons beard /\
     map fst beard = Component.ALL_FACIAL_HAIR /\ List.length beard = 12) /\
  (forall message,
     Component.hairArea props st = Component.Notice message <->
     StylePlayground.viewMode st = StylePlayground.recommended /\
     Component.hairstyles props = [] /\
     message = "No hairstyle suggestions available for this analysis mode.") /\
  (forall message,
     Component.beardArea props st = Component.Notice message <->
     StylePlayground.viewMode st = StylePlayground.recommended /\
     Component.facialHair props = [] /\
     message = "No facial hair suggestions available for this analysis mode.") /\
  Component.hairArea props st <> Component.Nothing /\
  Component.beardArea props st <> Component.Nothing.
Proof.
  unfold Component.hairArea, Component.beardArea, Component.area,
    Component.displayHairstyles, Component.displayFacialHair.
  split; [|split; [|split; [|split]]].
  - intros E. rewrite E. simpl.
    eexists. eexists. repeat split.
  - intros message.
    destruct (StylePlayground.viewMode st);
      [destruct (Component.hairstyles props) as [|r rs]|]; simpl; split.
    + intros H. injection H as <-. repeat split.
    + intros [_ [_ ->]]. reflexivity.
    + intros H. discriminate H.
    + intros [_ [H _]]. discriminate H.
    + intros H. discriminate H.
    + intros [H _]. discriminate H.
  - intros message.
    destruct (StylePlayground.viewMode st);
      [destruct (Component.facialHair props) as [|r rs]|]; simpl; split.
    + intros H. injection H as <-. repeat split.
    + intros [_ [_ ->]]. reflexivity.
    + intros H. discriminate H.
    + intros [_ [H _]]. discriminate H.
    + intros H. discriminate H.
    + intros [H _]. discriminate H.
  - destruct (StylePlayground.viewMode st);
      [destruct (Component.hairstyles props)|]; simpl; discriminate.
  - destruct (StylePlayground.viewMode st);
      [destruct (Component.facialHair props)|]; simpl; discriminate.
Qed.

Lemma selection_areas_witness :
  Component.hairArea SampleUI.beard_only_props (Sample.selecting None None)
  = Component.Notice "No hairstyle suggestions available for this analysis mode." /\
  exists hair beard,
    Component.hairArea SampleUI.beard_only_props
      (Component.setViewMode StylePlayground.explore (Sample.selecting None None))
    = Component.Buttons hair /\
    map fst hair = Component.ALL_HAIRSTYLES /\ List.length hair = 18 /\
    Component.beardArea SampleUI.beard_only_props
      (Component.setViewMode StylePlayground.explore (Sample.selecting None None))
    = Component.Buttons beard /\
    map fst beard = Component.ALL_FACIAL_HAIR /\ List.length beard = 12.
Proof.
  split.
  - apply (proj1 (proj2 (@selection_areas SampleUI.beard_only_props
                           (Sample.selecting None None)))).
    repeat split.
  - apply (proj1 (@selection_areas SampleUI.beard_only_props
                    (Component.setViewMode StylePlayground.explore
                       (Sample.selecting None None)))).
    reflexivity.
Defined.

(* ================================================================== *)
(** * Further properties of the Style Playground: a run of visualize *)
(* ================================================================== *)

Section VisualizeRun.

Import StylePlayground.

Variable generateContent : GenerateContentParameters -> ProviderError + Response.t.
Variable image : string.

Lemma selection_opens_gate (st : State) :
  JS.truthy (selectedHair st) || JS.truthy (selectedBeard st) = true ->
  hairPart st <> "" \/ beardPart st <> "".
Proof.
  unfold hairPart, beardPart. intros H.
  apply orb_true_iff in H. destruct H as [H|H]; [left|right]; rewrite H.
  - destruct (selectedHair st); [discriminate | discriminate H].
  - destruct (selectedBeard st); [discriminate | discriminate H].
Qed.

(** The trace of a run that passes the gate. *)
Lemma handleVisualize_trace (st : State) :
  JS.truthy (selectedHair st) || JS.truthy (selectedBeard st) = true ->
  handleVisualize generateContent image st
  = ([ setIsGenerating true; setError None;
       call_generateLookPreview image (description st) ]
     ++ match outcome (generateLookPreview generateContent image (description st)) with
        | inr imageUrl => [ setGeneratedImage (Some imageUrl); setSliderPosition 50 ]
        | inl err =>
            [ console_error err;
              setError (Some "Could not generate preview. Please try again.") ]
        end
     ++ [ setIsGenerating false ])%list.
Proof.
  intros Hsel. unfold handleVisualize.
  destruct (selection_opens_gate st Hsel) as [Hh|Hb].
  - rewrite (truthy_nonempty Hh). reflexivity.
  - rewrite (truthy_nonempty Hb), andb_false_r. reflexivity.
Qed.


End VisualizeRun.



(** X12.  A run of visualize that fails.  Whatever the error of the preview
    call (a rejection of the provider, a missing image, a TypeError), the
    error is logged and the playground ends with the one fixed message, the
    loading flag off, and the image, slider and selections it had; when no
    image was shown, the action block shows the message with the button
    enabled, and pressing it again sends the same request. *)
Theorem visualize_failure
  (generateContent : GenerateContentParameters -> ProviderError + Response.t)
  (image : string) (st : StylePlayground.State) (err : exn) :
  JS.truthy (StylePlayground.selectedHair st)
  || JS.truthy (StylePlayground.selectedBeard st) = true ->
  outcome (generateLookPreview generateContent image
             (StylePlayground.description st)) = inl err ->
  let trace := StylePlayground.handleVisualize generateContent image st in
  let final := StylePlayground.run st trace in
  In (StylePlayground.console_error err) trace /\
  StylePlayground.error final
  = Some "Could not generate preview. Please try again." /\
  StylePlayground.isGenerating final = false /\
  StylePlayground.generatedImage final = StylePlayground.generatedImage st /\
  StylePlayground.sliderPosition final = StylePlayground.sliderPosition st /\
  StylePlayground.selectedHair final = StylePlayground.selectedHair st /\
  StylePlayground.selectedBeard final = StylePlayground.selectedBeard st /\
  StylePlayground.preview_requests
    (StylePlayground.handleVisualize generateContent image final)
  = StylePlayground.preview_requests trace /\
  (JS.truthy (StylePlayground.generatedImage st) = false ->
   Component.actionBlock final
   = Some {| Component.errorLine :=
               Some "Could not generate preview. Please try again.";
             Component.disabled := false;
             Component.label := "Visualize Custom Look" |}).
Proof.
  intros Hsel Hout. cbv zeta.
  rewrite (handleVisualize_trace generateContent image st Hsel), Hout.
  simpl. split; [right; right; right; left; reflexivity|].
  repeat split.
  - match goal with
    | |- context [StylePlayground.handleVisualize _ _ ?f] => set (final := f)
    end.
    assert (Hd : StylePlayground.description final = StylePlayground.description st)
      by reflexivity.
    assert (Hsel' : JS.truthy (StylePlayground.selectedHair final)
                    || JS.truthy (StylePlayground.selectedBeard final) = true)
      by exact Hsel.
    rewrite (handleVisualize_trace generateContent image final Hsel'), Hd, Hout.
    reflexivity.
  - intros Hnone. unfold Component.actionBlock. simpl. rewrite Hnone. simpl.
    unfold StylePlayground.visualize_disabled. simpl.
    apply orb_true_iff in Hsel.
    destruct Hsel as [H|H]; rewrite H; simpl; rewrite ?andb_false_r; reflexivity.
Qed.

Lemma visualize_failure_witness :
  StylePlayground.error
    (StylePlayground.run (Sample.selecting (Some "Quiff") None)
       (StylePlayground.handleVisualize (Sample.rejects "offline") "AAAA"
          (Sample.selecting (Some "Quiff") None)))
  = Some "Could not generate preview. Please try again." /\
  Component.actionBlock
    (StylePlayground.run (Sample.selecting (Some "Quiff") None)
       (StylePlayground.handleVisualize (Sample.rejects "offline") "AAAA"
          (Sample.selecting (Some "Quiff") None)))
  = Some {| Component.errorLine :=
              Some "Could not generate preview. Please try again.";
            Component.disabled := false;
            Component.label := "Visualize Custom Look" |}.
Proof.
  pose proof (@visualize_failure (Sample.rejects "offline") "AAAA"
                (Sample.selecting (Some "Quiff") None) (Rejected "offline")
                eq_refl eq_refl) as H.
  cbv zeta in H.
  destruct H as [_ [Herr [_ [_ [_ [_ [_ [_ Hblock]]]]]]]].
  split; [exact Herr | apply Hblock; reflexivity].
Defined.

(** X13.  The loading flag brackets the preview call.  A run from a state
    with a selection first raises the flag and clears the error, only then
    calls the Preview Generator; while the call is pending the action button
    is disabled and reads "Generating Custom Look..."; and however the call
    ends, the last effect of the run lowers the flag. *)
Theorem loading_flag_brackets_call
  (generateContent : GenerateContentParameters -> ProviderError + Response.t)
  (image : string) (st : StylePlayground.State) :
  JS.truthy (StylePlayground.selectedHair st)
  || JS.truthy (StylePlayground.selectedBeard st) = true ->
  exists middle,
    StylePlayground.handleVisualize generateContent image st
    = (StylePlayground.setIsGenerating true :: StylePlayground.setError None ::
       StylePlayground.call_generateLookPreview image
         (StylePlayground.description st) ::
       middle ++ [StylePlayground.setIsGenerating false])%list /\
    StylePlayground.preview_requests middle = [] /\
    let pending :=
      StylePlayground.run st
        [StylePlayground.setIsGenerating true; StylePlayground.setError None] in
    StylePlayground.isGenerating pending = true /\
    StylePlayground.error pending = None /\
    StylePlayground.visualize_disabled pending = true /\
    (forall block, Component.actionBlock pending = Some block ->
       Component.disabled block = true /\
       Component.label block = "Generating Custom Look..." /\
       Component.errorLine block = None) /\
    StylePlayground.isGenerating
      (StylePlayground.run st
         (StylePlayground.handleVisualize generateContent image st)) = false.
Proof.
  intros Hsel.
  rewrite (handleVisualize_trace generateContent image st Hsel).
  destruct (outcome (generateLookPreview generateContent image
                       (StylePlayground.description st))) as [err|url];
    eexists; (split; [reflexivity|]); (split; [reflexivity|]);
    cbv zeta; simpl;
    (split; [reflexivity|]); (split; [reflexivity|]); (split; [reflexivity|]);
    (split; [|reflexivity]);
    intros block Hblock; unfold Component.actionBlock in Hblock; simpl in Hblock;
    destruct (JS.truthy (StylePlayground.generatedImage st)); simpl in Hblock;
    try discriminate Hblock; injection Hblock as <-;
    (split; [reflexivity|]); split; reflexivity.
Qed.

Lemma loading_flag_brackets_call_witness :
  StylePlayground.visualize_disabled
    (StylePlayground.run (Sample.selecting None (Some "Goatee"))
       [StylePlayground.setIsGenerating true; StylePlayground.setError None])
  = true /\
  StylePlayground.isGenerating
    (StylePlayground.run (Sample.selecting None (Some "Goatee"))
       (StylePlayground.handleVisualize SampleUI.image_provider "AAAA"
          (Sample.selecting None (Some "Goatee")))) = false.
Proof.
  destruct (@loading_flag_brackets_call SampleUI.image_provider "AAAA"
              (Sample.selecting None (Some "Goatee")) eq_refl)
    as [middle [_ [_ H]]].
  cbv zeta in H. destruct H as [_ [_ [Hdisabled [_ Hfinal]]]].
  split; [exact Hdisabled | exact Hfinal].
Defined.

(* ================================================================== *)
(** * Further properties of the Style Playground: reset, overlay, sharing *)
(* ================================================================== *)

(** X14.  Reset clears the generated image, the error and the measured width
    and nothing else: the selections, the view, the loading flag and the
    slider position stay.  After it the result pane is gone, the action block
    is back without error line, visualize does what it did before the reset,
    and a second reset changes nothing. *)
Theorem reset_returns_to_selection
  (generateContent : GenerateContentParameters -> ProviderError + Response.t)
  (props : Component.Props) (st : StylePlayground.State) :
  let r := Component.handleReset st in
  StylePlayground.generatedImage r = None /\
  StylePlayground.error r = None /\
  StylePlayground.containerWidth r = 0%Z /\
  StylePlayground.selectedHair r = StylePlayground.selectedHair st /\
  StylePlayground.selectedBeard r = StylePlayground.selectedBeard st /\
  StylePlayground.viewMode r = StylePlayground.viewMode st /\
  StylePlayground.sliderPosition r = StylePlayground.sliderPosition st /\
  StylePlayground.isGenerating r = StylePlayground.isGenerating st /\
  Component.handleReset r = r /\
  Component.resultPane props r = None /\
  (exists block,
     Component.actionBlock r = Some block /\
     Component.errorLine block = None /\
     Component.disabled block = StylePlayground.visualize_disabled st) /\
  StylePlayground.handleVisualize generateContent
    (Component.originalImageBase64 props) r
  = StylePlayground.handleVisualize generateContent
      (Component.originalImageBase64 props) st.
Proof.
  cbv zeta. repeat split.
  eexists. split; [reflexivity|]. split; reflexivity.
Qed.

(** X15.  The generated image is laid over the original only once the
    container has been measured.  While the measured width is 0 the overlay
    is rendered with opacity 0 and width 100%; the effect hooked on the
    generated image measures the container and from then on the overlay is
    opaque and exactly as wide, in pixels, as the container; without a
    generated image, or without a mounted container, the effect does
    nothing. *)
Theorem overlay_hidden_until_measured
  (props : Component.Props) (st : StylePlayground.State) (image : string) :
  StylePlayground.generatedImage st = Some image ->
  image <> "" ->
  (StylePlayground.containerWidth st = 0%Z ->
   exists pane,
     Component.resultPane props st = Some pane /\
     Component.overlayOpacity pane = 0%Z /\
     Component.overlayWidth pane = "100%") /\
  (forall w, w <> 0%Z ->
     exists pane,
       Component.resultPane props (Component.measureEffect (Some w) st) = Some pane /\
       Component.overlayOpacity pane = 1%Z /\
       Component.overlayWidth pane = Component.show w ++ "px" /\
       Component.overlaySrc pane = image /\
       Component.backgroundSrc pane = Component.originalImageBase64 props) /\
  Component.measureEffect None st = st /\
  (forall (idle : StylePlayground.State) (offsetWidth : option Z),
     JS.truthy (StylePlayground.generatedImage idle) = false ->
     Component.measureEffect offsetWidth idle = idle /\
     Component.resultPane props idle = None).
Proof.
  intros Himage Hne.
  pose proof (truthy_nonempty Hne) as Htruthy.
  split; [|split; [|split]].
  - intros Hzero. unfold Component.resultPane.
    rewrite Himage, Htruthy, Hzero. eexists. repeat split.
  - intros w Hw. unfold Component.measureEffect, Component.resultPane.
    rewrite Himage, Htruthy. simpl. rewrite Himage, Htruthy.
    assert (E : Component.truthy_number w = true).
    { unfold Component.truthy_number. apply negb_true_iff.
      apply Z.eqb_neq. exact Hw. }
    rewrite E. eexists. repeat split.
  - unfold Component.measureEffect. rewrite Himage, Htruthy. reflexivity.
  - intros idle offsetWidth Hidle.
    unfold Component.measureEffect, Component.resultPane.
    rewrite Hidle. split; reflexivity.
Qed.

Lemma overlay_hidden_until_measured_witness :
  (exists pane,
     Component.resultPane SampleUI.beard_only_props
       (SampleUI.showing "data:image/png;base64,iVBORw0KGgo=" 0) = Some pane /\
     Component.overlayOpacity pane = 0%Z /\
     Component.overlayWidth pane = "100%") /\
  exists pane,
    Component.resultPane SampleUI.beard_only_props
      (Component.measureEffect (Some 640%Z)
         (SampleUI.showing "data:image/png;base64,iVBORw0KGgo=" 0)) = Some pane /\
    Component.overlayOpacity pane = 1%Z /\
    Component.overlayWidth pane = "640px".
Proof.
  pose proof (@overlay_hidden_until_measured SampleUI.beard_only_props
                (SampleUI.showing "data:image/png;base64,iVBORw0KGgo=" 0)
                "data:image/png;base64,iVBORw0KGgo=" eq_refl) as H.
  destruct H as [Hhidden [Hshown _]]; [discriminate|].
  split.
  - apply Hhidden. reflexivity.
  - destruct (Hshown 640%Z) as [pane [Hp [Ho [Hw _]]]]; [discriminate|].
    exists pane. split; [exact Hp | split; [exact Ho | exact Hw]].
Defined.

(** X16.  Sharing always hands over the image, one way or the other.
    Without a generated image neither [handleShare] nor [downloadImage] does
    anything.  With one, [downloadImage] clicks one link to the generated
    image named stylescout-custom-<time>.png; [handleShare] either shares a
    file custom-look.png of type image/png made from the generated image and
    downloads nothing, or (no [navigator.share], or the fetch or the share
    failed, a dismissed dialog included) logs the failure if any and
    downloads the image exactly once. *)
Theorem share_or_download (browser : Component.Browser)
  (st : StylePlayground.State) :
  (JS.truthy (StylePlayground.generatedImage st) = false ->
   Component.handleShare browser st = [] /\
   Component.downloadImage browser st = []) /\
  (forall image,
     StylePlayground.generatedImage st = Some image -> image <> "" ->
     let link :=
       {| Component.href := image;
          Component.download :=
            "stylescout-custom-" ++ Component.show (Component.getTime browser)
            ++ ".png" |} in
     let trace := Component.handleShare browser st in
     Component.downloadImage browser st
     = [Component.appendChild link; Component.click link;
        Component.removeChild link] /\
     (Component.share browser = None ->
      trace = Component.downloadImage browser st) /\
     (Component.clicks trace = [] \/ Component.clicks trace = [link]) /\
     (Component.clicks trace = [] <->
      exists navigator_share payload,
        Component.share browser = Some navigator_share /\
        Component.fetch browser image = None /\
        navigator_share payload = None /\
        trace = [Component.fetched image; Component.shared payload] /\
        Component.fileSource payload = image /\
        Component.fileName payload = "custom-look.png" /\
        Component.fileType payload = "image/png" /\
        Component.shareText payload
        = "Checking out this custom look: "
          ++ JS.or_else (StylePlayground.selectedHair st) "" ++ " + "
          ++ JS.or_else (StylePlayground.selectedBeard st) "") /\
     (Component.clicks trace = [link] ->
      Component.share browser = None \/
      exists err, In (Component.logged "Error sharing:" err) trace)).
Proof.
  split.
  - intros Hnone. unfold Component.handleShare, Component.downloadImage.
    rewrite Hnone. split; reflexivity.
  - intros image Himage Hne. cbv zeta.
    pose proof (truthy_nonempty Hne) as Htruthy.
    assert (Hdl : Component.downloadImage browser st
                  = [Component.appendChild
                       {| Component.href := image;
                          Component.download :=
                            "stylescout-custom-"
                            ++ Component.show (Component.getTime browser) ++ ".png" |};
                     Component.click
                       {| Component.href := image;
                          Component.download :=
                            "stylescout-custom-"
                            ++ Component.show (Component.getTime browser) ++ ".png" |};
                     Component.removeChild
                       {| Component.href := image;
                          Component.download :=
                            "stylescout-custom-"
                            ++ Component.show (Component.getTime browser) ++ ".png" |}]).
    { unfold Component.downloadImage. rewrite Himage, Htruthy. reflexivity. }
    split; [exact Hdl|].
    unfold Component.handleShare. rewrite Himage, Htruthy. simpl.
    destruct (Component.share browser) as [navigator_share|] eqn:Eshare.
    + destruct (Component.fetch browser image) as [ferr|] eqn:Efetch.
      * rewrite Hdl. simpl.
        split; [intros H; discriminate H|].
        split; [right; reflexivity|].
        split; [split|].
        -- intros H. discriminate H.
        -- intros [f [payload [_ [H _]]]]. discriminate H.
        -- intros _. right. exists ferr. right. left. reflexivity.
      * match goal with
        | |- context [navigator_share ?p] =>
            set (payload := p); destruct (navigator_share payload) as [serr|] eqn:Es
        end.
        -- rewrite Hdl. simpl.
           split; [intros H; discriminate H|].
           split; [right; reflexivity|].
           split; [split|].
           ++ intros H. discriminate H.
           ++ intros [f [p [Hf [_ [_ [H _]]]]]]. discriminate H.
           ++ intros _. right. exists serr. right. right. left. reflexivity.
        -- simpl.
           split; [intros H; discriminate H|].
           split; [left; reflexivity|].
           split; [split|].
           ++ intros _. exists navigator_share, payload.
              repeat split. exact Es.
           ++ intros _. reflexivity.
           ++ intros H. discriminate H.
    + rewrite Hdl. simpl.
      split; [reflexivity|].
      split; [right; reflexivity|].
      split; [split|].
      * intros H. discriminate H.
      * intros [f [payload [H _]]]. discriminate H.
      * intros _. left. reflexivity.
Qed.

Lemma share_or_download_witness :
  Component.clicks
    (Component.handleShare SampleUI.dismissing
       (SampleUI.showing "data:image/png;base64,iVBORw0KGgo=" 640))
  = [ {| Component.href := "data:image/png;base64,iVBORw0KGgo=";
         Component.download := "stylescout-custom-1700000000000.png" |} ] /\
  Component.handleShare SampleUI.desktop
    (SampleUI.showing "data:image/png;base64,iVBORw0KGgo=" 640)
  = Component.downloadImage SampleUI.desktop
      (SampleUI.showing "data:image/png;base64,iVBORw0KGgo=" 640) /\
  Component.clicks
    (Component.handleShare SampleUI.sharing
       (SampleUI.showing "data:image/png;base64,iVBORw0KGgo=" 640)) = [].
Proof.
  assert (Hne : "data:image/png;base64,iVBORw0KGgo=" <> "") by discriminate.
  split; [|split].
  - pose proof (proj2 (@share_or_download SampleUI.dismissing
                         (SampleUI.showing "data:image/png;base64,iVBORw0KGgo=" 640))
                  "data:image/png;base64,iVBORw0KGgo=" eq_refl Hne) as H.
    cbv zeta in H. destruct H as [_ [_ [[H|H] _]]].
    + vm_compute in H. discriminate H.
    + exact H.
  - pose proof (proj2 (@share_or_download SampleUI.desktop
                         (SampleUI.showing "data:image/png;base64,iVBORw0KGgo=" 640))
                  "data:image/png;base64,iVBORw0KGgo=" eq_refl Hne) as H.
    cbv zeta in H. destruct H as [_ [H _]].
    apply H. reflexivity.
  - pose proof (proj2 (@share_or_download SampleUI.sharing
                         (SampleUI.showing "data:image/png;base64,iVBORw0KGgo=" 640))
                  "data:image/png;base64,iVBORw0KGgo=" eq_refl Hne) as H.
    cbv zeta in H. destruct H as [_ [_ [_ [H _]]]].
    apply H. eexists. eexists.
    split; [reflexivity|]. split; [reflexivity|]. split; [reflexivity|].
    split; [reflexivity|]. repeat split.
Defined.

(* ================================================================== *)
(** * From the selection to the prompt *)
(* ================================================================== *)

Lemma includes_after (n x y : string) :
  JS.includes n y = true -> JS.includes n (x ++ y) = true.
Proof.
  intros H. induction x as [|c x IH]; [exact H|].
  change (String c x ++ y) with (String c (x ++ y)).
  rewrite includes_unfold, IH. apply orb_true_r.
Qed.

(** X17.  What is asked of the Preview Generator for each selection.  With a
    hairstyle [h] and a facial-hair style [b] selected, visualize sends one
    request described as "Hairstyle: h. Facial Hair: b. Create a cohesive
    look."; with a facial-hair style alone the hairstyle fragment is empty
    and the description starts with ". Facial Hair: b".  The prompt of the
    provider request is one text that holds the description verbatim, next
    to the image stripped by [cleanBase64]. *)
Theorem selection_reaches_prompt
  (generateContent : GenerateContentParameters -> ProviderError + Response.t)
  (image : string) (st : StylePlayground.State) (b : string) :
  StylePlayground.selectedBeard st = Some b ->
  b <> "" ->
  (forall h, StylePlayground.selectedHair st = Some h -> h <> "" ->
     StylePlayground.preview_requests
       (StylePlayground.handleVisualize generateContent image st)
     = [(image, "Hairstyle: " ++ h ++ ". Facial Hair: " ++ b
                ++ ". Create a cohesive look.")]) /\
  (JS.truthy (StylePlayground.selectedHair st) = false ->
   StylePlayground.preview_requests
     (StylePlayground.handleVisualize generateContent image st)
   = [(image, ". Facial Hair: " ++ b ++ ". Create a cohesive look.")]) /\
  (forall d,
     In (image, d)
        (StylePlayground.preview_requests
           (StylePlayground.handleVisualize generateContent image st)) ->
     exists prompt,
       Variation.prompt_texts (generateLookPreview_request image d) = [prompt] /\
       JS.includes d prompt = true /\
       Spec.transmitted (generateLookPreview_request image d)
       = [Some (cleanBase64 image)]).
Proof.
  intros Eb Hb.
  assert (Hbeard : StylePlayground.beardPart st = "Facial Hair: " ++ b).
  { unfold StylePlayground.beardPart. rewrite Eb, (truthy_nonempty Hb). reflexivity. }
  assert (Hreq : StylePlayground.preview_requests
                   (StylePlayground.handleVisualize generateContent image st)
                 = [(image, StylePlayground.description st)]).
  { apply handleVisualize_requests. right. rewrite Hbeard. discriminate. }
  split; [|split].
  - intros h Eh Hh. rewrite Hreq. unfold StylePlayground.description.
    rewrite (hairPart_selected st Eh Hh), Hbeard.
    rewrite !append_assoc. reflexivity.
  - intros Hnone. rewrite Hreq. unfold StylePlayground.description.
    unfold StylePlayground.hairPart. rewrite Hnone, Hbeard.
    simpl. rewrite ?append_assoc. reflexivity.
  - intros d _. eexists. split; [reflexivity|]. split; [|reflexivity].
    apply includes_after. apply includes_at_start.
Qed.

Lemma selection_reaches_prompt_witness :
  StylePlayground.preview_requests
    (StylePlayground.handleVisualize (Sample.rejects "offline")
       "data:image/jpeg;base64,AAAA"
       (Sample.selecting (Some "Quiff") (Some "Full Beard")))
  = [("data:image/jpeg;base64,AAAA",
      "Hairstyle: Quiff. Facial Hair: Full Beard. Create a cohesive look.")] /\
  StylePlayground.preview_requests
    (StylePlayground.handleVisualize (Sample.rejects "offline")
       "data:image/jpeg;base64,AAAA"
       (Sample.selecting None (Some "Full Beard")))
  = [("data:image/jpeg;base64,AAAA",
      ". Facial Hair: Full Beard. Create a cohesive look.")].
Proof.
  assert (Hne : "Full Beard" <> "") by discriminate.
  assert (Hq : "Quiff" <> "") by discriminate.
  split.
  - exact (proj1 (@selection_reaches_prompt (Sample.rejects "offline")
                    "data:image/jpeg;base64,AAAA"
                    (Sample.selecting (Some "Quiff") (Some "Full Beard"))
                    "Full Beard" eq_refl Hne) "Quiff" eq_refl Hq).
  - exact (proj1 (proj2 (@selection_reaches_prompt (Sample.rejects "offline")
                    "data:image/jpeg;base64,AAAA"
                    (Sample.selecting None (Some "Full Beard"))
                    "Full Beard" eq_refl Hne)) eq_refl).
Defined.
